(** * archiver: archive detection, cataloging and extraction

    A shallow embedding of [archivehandler.go] (package [archiver]) and the
    properties of its specification.

    The Go code talks to the operating system ([os.Stat], [os.Open],
    [os.Getwd]), to [path/filepath] and to three codecs ([archive/zip],
    [github.com/bodgit/sevenzip], [compress/gzip] under [archive/tar]).  None
    of them is part of the package: they are gathered in a [World] record
    that every function of the package reads.  The package's functions run in
    a small writer monad [IO] that records each call to the outside world and
    stops at a run-time panic. *)

From Stdlib Require Import ZArith List String Ascii Bool Lia.
From Stdlib Require Strings.Byte.
Import ListNotations.

Local Open Scope string_scope.
Local Open Scope list_scope.
Local Open Scope Z_scope.

(** ** Go values *)

Definition byte := Byte.byte.

(** [time.Time] is only stored and handed on: an opaque stamp. *)
Definition Time := Z.

(** [fs.FileMode] is a [uint32]; the package only copies it. *)
Definition FileMode := Z.

(** Go's [error] interface.  [io_EOF] is the sentinel [io.EOF] (compared by
    identity in the source), [wrapError] is what [fmt.Errorf] builds for a
    format that holds [%w]. *)
Inductive error : Type :=
| io_EOF
| errors_New (text : string)
| wrapError (msg : string) (err : error).

Definition Error (e : error) : string :=
  match e with
  | io_EOF => "EOF"
  | errors_New text => text
  | wrapError msg _ => msg
  end.

Definition error_eqb_EOF (e : option error) : bool :=
  match e with
  | Some io_EOF => true
  | _ => false
  end.

(** [fmt.Errorf("Could not open %s.  %w", p, err)] *)
Definition Errorf_Could_not_open (p : string) (err : error) : error :=
  wrapError (String.append "Could not open "
               (String.append p (String.append ".  " (Error err)))) err.

(** The text [GetArchiveInfo] prints: ["Error: Invalid input path.\n"]. *)
Definition Invalid_input_path : string :=
  String.append "Error: Invalid input path."
    (String (ascii_of_nat 10) EmptyString).

(** Conversion of a [uint64] to [int64]: two's complement wrap-around. *)
Definition int64 (z : Z) : Z := (z + 2 ^ 63) mod 2 ^ 64 - 2 ^ 63.

(** [len(s)] of a Go string or slice, as an [int]. *)
Definition len {A : Type} (s : list A) : Z := Z.of_nat (List.length s).

(** [strings.Contains(s, substr)] *)
Fixpoint strings_Contains (s substr : string) : bool :=
  String.prefix substr s ||
  match s with
  | EmptyString => false
  | String _ s' => strings_Contains s' substr
  end.

(** [slices.IndexFunc]: the first index whose element satisfies [f], or -1. *)
Fixpoint IndexFunc_from {A : Type} (i : Z) (s : list A) (f : A -> bool) : Z :=
  match s with
  | [] => -1
  | x :: s' => if f x then i else IndexFunc_from (i + 1) s' f
  end.

Definition IndexFunc {A : Type} (s : list A) (f : A -> bool) : Z :=
  IndexFunc_from 0 s f.

(** ** The package's data *)

(** [type ArchiveType int]: any [int] is a value of the type; the constants
    are numbered by [iota]. *)
Definition ArchiveType := Z.

Definition ARCHIVE_UNINIT : ArchiveType := 0.
Definition ARCHIVE_NA : ArchiveType := 1.
Definition ARCHIVE_ZIP : ArchiveType := 2.
Definition ARCHIVE_TGZ : ArchiveType := 3.
Definition ARCHIVE_7Z : ArchiveType := 4.

Record ArchivedFile : Type := mkArchivedFile {
  af_archivefile : string;
  af_archivetype : ArchiveType;
  af_name : string;
  af_size : Z;
  af_IsDir : bool;
  af_mode : FileMode;
  af_modTime : Time
}.

Record ArchiveInfo : Type := mkArchiveInfo {
  ai_path : string;
  ai_name : string;
  ai_fullname : string;
  ai_size : Z;
  ai_ArchiveType : ArchiveType;
  ai_files : list ArchivedFile
}.

(** [var arinstance ArchiveInfo]: the zero value. *)
Definition zero_ArchiveInfo : ArchiveInfo :=
  mkArchiveInfo "" "" "" 0 ARCHIVE_UNINIT [].

Definition set_path (ar : ArchiveInfo) (p : string) : ArchiveInfo :=
  mkArchiveInfo p (ai_name ar) (ai_fullname ar) (ai_size ar)
    (ai_ArchiveType ar) (ai_files ar).

Definition set_name (ar : ArchiveInfo) (n : string) : ArchiveInfo :=
  mkArchiveInfo (ai_path ar) n (ai_fullname ar) (ai_size ar)
    (ai_ArchiveType ar) (ai_files ar).

Definition set_fullname (ar : ArchiveInfo) (n : string) : ArchiveInfo :=
  mkArchiveInfo (ai_path ar) (ai_name ar) n (ai_size ar)
    (ai_ArchiveType ar) (ai_files ar).

Definition set_size (ar : ArchiveInfo) (n : Z) : ArchiveInfo :=
  mkArchiveInfo (ai_path ar) (ai_name ar) (ai_fullname ar) n
    (ai_ArchiveType ar) (ai_files ar).

Definition set_ArchiveType (ar : ArchiveInfo) (t : ArchiveType) : ArchiveInfo :=
  mkArchiveInfo (ai_path ar) (ai_name ar) (ai_fullname ar) (ai_size ar)
    t (ai_files ar).

Definition set_files (ar : ArchiveInfo) (fs : list ArchivedFile) : ArchiveInfo :=
  mkArchiveInfo (ai_path ar) (ai_name ar) (ai_fullname ar) (ai_size ar)
    (ai_ArchiveType ar) fs.

(** [ArchiveInfo.Files] *)
Definition Files (ai : ArchiveInfo) : list ArchivedFile := ai_files ai.

(** [ArchiveInfo.File]: the pointer [&ai.files[idx]] is modelled by the
    element it points to, [nil] by [None]. *)
Definition File (ai : ArchiveInfo) (fname : string) : option ArchivedFile :=
  if len (ai_files ai) =? 0 then None
  else
    let idx := IndexFunc (ai_files ai) (fun e => String.eqb (af_name e) fname) in
    if idx =? -1 then None
    else nth_error (ai_files ai) (Z.to_nat idx).

(** The accessors of [ArchiveInfo]: [Size], [Name], [Path]. *)
Definition ai_Size (ai : ArchiveInfo) : Z := ai_size ai.
Definition ai_Name (ai : ArchiveInfo) : string := ai_name ai.
Definition ai_Path (ai : ArchiveInfo) : string := ai_path ai.

(** The accessors of [ArchivedFile]: [Path], [Name], [Size], [Mode],
    [ModTime] and [Sys], which returns 0. *)
Definition af_Path (fs : ArchivedFile) : string := af_archivefile fs.
Definition af_Name (fs : ArchivedFile) : string := af_name fs.
Definition af_Size (fs : ArchivedFile) : Z := af_size fs.
Definition af_Mode (fs : ArchivedFile) : FileMode := af_mode fs.
Definition af_ModTime (fs : ArchivedFile) : Time := af_modTime fs.
Definition af_Sys (fs : ArchivedFile) : Z := 0.

(** ** The outside world *)

(** An [io.Reader] over an entry's decoded payload.  The package calls [Read]
    once per reader, so what matters is how many bytes that first call
    delivers: [io.Reader] allows any number up to the buffer's length.
    [rd_first] is the number of bytes the decoder has ready for it. *)
Record Reader : Type := mkReader {
  rd_payload : list byte;
  rd_first : nat
}.

(** [r.Read(p)]: the buffer after the call and the count [n]. *)
Definition Read (r : Reader) (p : list byte) : list byte * nat :=
  let n := Nat.min (List.length p)
             (Nat.min (rd_first r) (List.length (rd_payload r))) in
  (firstn n (rd_payload r) ++ skipn n p, n).

(** [*zip.File]: the header fields the package reads, and [Open]. *)
Record ZipFile : Type := mkZipFile {
  zf_Name : string;
  zf_UncompressedSize64 : Z;          (* uint64 *)
  zf_IsDir : bool;                    (* FileInfo().IsDir() *)
  zf_Mode : FileMode;                 (* Mode() *)
  zf_ModTime : Time;                  (* ModTime() *)
  zf_Open : error + Reader            (* Open() *)
}.

(** [*sevenzip.File] *)
Record SzFile : Type := mkSzFile {
  sz_Name : string;
  sz_Size : Z;                        (* FileInfo().Size(), an int64 *)
  sz_IsDir : bool;                    (* FileInfo().IsDir() *)
  sz_Mode : FileMode;                 (* Mode() *)
  sz_Modified : Time;                 (* Modified *)
  sz_Open : error + Reader            (* Open() *)
}.

(** [*tar.Header] *)
Record TarHeader : Type := mkTarHeader {
  th_Name : string;
  th_Size : Z;                        (* int64 *)
  th_IsDir : bool;                    (* FileInfo().IsDir() *)
  th_Mode : FileMode;                 (* FileInfo().Mode() *)
  th_ModTime : Time
}.

Record TarEntry : Type := mkTarEntry {
  te_head : TarHeader;
  te_data : Reader
}.

(** What a [tar.Reader] over a gzip stream yields: [Next] returns the headers
    of [tar_entries] one after the other with a nil error, then a nil header
    with [tar_end] ([io.EOF] after a clean end of archive, another error when
    the stream is damaged). *)
Record TarStream : Type := mkTarStream {
  tar_entries : list TarEntry;
  tar_end : error
}.

(** An open [*os.File]. *)
Record OsFile : Type := mkOsFile {
  file_bytes : list byte;
  file_read_err : option error
}.

Record World : Type := mkWorld {
  w_PathSeparator : ascii;                           (* os.PathSeparator *)
  w_Getwd : string * option error;                   (* os.Getwd *)
  w_Dir : string -> string;                          (* filepath.Dir *)
  w_Base : string -> string;                         (* filepath.Base *)
  w_Join : string -> string -> string;               (* filepath.Join *)
  w_Stat : string -> error + Z;                      (* os.Stat, fs.Size() *)
  w_Open : string -> error + OsFile;                 (* os.Open *)
  w_zip : string -> error + list ZipFile;            (* zip.OpenReader *)
  w_sevenzip : string -> error + list SzFile;        (* sevenzip.OpenReader *)
  w_gzip : OsFile -> error + TarStream;              (* gzip.NewReader, tar.NewReader *)
  w_maxAlloc : Z                                     (* the largest length [make] serves *)
}.

(** ** Effects *)

(** The catalogers and extractors of the package. *)
Inductive method : Type :=
| loadZip | load7Z | loadTgz
| extractZip | extract7Z | extractTgz.

Inductive event : Type :=
| EvCall (f : method)
| EvPrintf (s : string)
| EvGetwd
| EvStat (p : string)
| EvOpen (p : string)
| EvFileRead (p : string) (n : Z)
| EvFileClose (p : string)
| EvZipOpenReader (p : string)
| EvZipClose (p : string)
| EvSevenzipOpenReader (p : string)
| EvSevenzipClose (p : string)
| EvGzipNewReader (p : string)
| EvGzipClose (p : string)
| EvTarNext (p : string)
| EvTarRead (p : string) (n : Z)
| EvEntryOpen (p name : string)
| EvEntryRead (p name : string) (n : Z)
| EvEntryClose (p name : string).

Inductive result (A : Type) : Type :=
| Ok (a : A)
| Panic (msg : string).

Arguments Ok {A} a.
Arguments Panic {A} msg.

(** A computation: its result and the calls it made, oldest first. *)
Definition IO (A : Type) : Type := (result A * list event)%type.

Definition ret {A : Type} (a : A) : IO A := (Ok a, []).

Definition bind {A B : Type} (m : IO A) (f : A -> IO B) : IO B :=
  match fst m with
  | Ok a => (fst (f a), snd m ++ snd (f a))
  | Panic msg => (Panic msg, snd m)
  end.

Definition emit (e : event) : IO unit := (Ok tt, [e]).

Definition panic {A : Type} (msg : string) : IO A := (Panic msg, []).

(** [defer c; body]: the deferred call runs when the function returns or
    panics. *)
Definition deferring {A : Type} (e : event) (body : IO A) : IO A :=
  (fst body, snd body ++ [e]).

Notation "x <- m ;; k" := (bind m (fun x => k))
  (at level 61, m at next level, right associativity).
Notation "m ;;; k" := (bind m (fun _ => k))
  (at level 61, right associativity).

(** [make([]byte, n)] for a length [n] computed at run time.  The runtime
    stops the program on a negative length and on a length above what it can
    allocate: above its constant [maxAlloc] the length check panics, and a
    machine short of memory fails sooner.  The largest length that is served
    is [limit], given by the world as [w_maxAlloc]; the model records every
    failed allocation as the panic of the length check. *)
Definition make_bytes (limit n : Z) : IO (list byte) :=
  if n <? 0 then panic "makeslice: len out of range"
  else if limit <? n then panic "makeslice: len out of range"
  else ret (repeat Byte.x00 (Z.to_nat n)).

(** [make([]byte, 5)]: the length is a constant of the program, far below
    any allocation limit, so the run-time check of the length cannot fail. *)
Definition make_bytes_const (n : nat) : IO (list byte) :=
  ret (repeat Byte.x00 n).

(** [p[i]] for an index within the slice. *)
Definition at_ (p : list byte) (i : nat) : byte := nth i p Byte.x00.

Definition is_ev_codec (e : event) : bool :=
  match e with
  | EvCall _
  | EvZipOpenReader _ | EvSevenzipOpenReader _ | EvGzipNewReader _
  | EvTarNext _ | EvTarRead _ _
  | EvEntryOpen _ _ | EvEntryRead _ _ _ => true
  | _ => false
  end.

Definition is_ev_file_access (e : event) : bool :=
  match e with
  | EvOpen _ | EvFileRead _ _ => true
  | _ => false
  end.

(** ** The package's functions *)

Section Archiver.

Context (w : World).

Definition fmt_Printf (s : string) : IO unit := emit (EvPrintf s).

Definition os_Getwd : IO (string * option error) :=
  emit EvGetwd ;;; ret (w_Getwd w).

Definition os_Stat (p : string) : IO (error + Z) :=
  emit (EvStat p) ;;; ret (w_Stat w p).

Definition os_Open (p : string) : IO (error + OsFile) :=
  emit (EvOpen p) ;;; ret (w_Open w p).

(** [file.Read(b)] on a regular file: the bytes from the start of the file,
    as many as fit; [0, io.EOF] on an empty file; the buffer is untouched
    when the read fails. *)
Definition file_Read (p : string) (f : OsFile) (b : list byte)
  : IO (list byte * option error) :=
  emit (EvFileRead p (len b)) ;;;
  match file_read_err f with
  | Some e => ret (b, Some e)
  | None =>
      match file_bytes f with
      | [] => ret (b, if len b =? 0 then None else Some io_EOF)
      | _ =>
          let n := Nat.min (List.length b) (List.length (file_bytes f)) in
          ret (firstn n (file_bytes f) ++ skipn n b, None)
      end
  end.

Definition zip_OpenReader (p : string) : IO (error + list ZipFile) :=
  emit (EvZipOpenReader p) ;;; ret (w_zip w p).

Definition sevenzip_OpenReader (p : string) : IO (error + list SzFile) :=
  emit (EvSevenzipOpenReader p) ;;; ret (w_sevenzip w p).

Definition gzip_NewReader (p : string) (f : OsFile) : IO (error + TarStream) :=
  emit (EvGzipNewReader p) ;;; ret (w_gzip w f).

Definition entry_Open (p name : string) (o : error + Reader)
  : IO (error + Reader) :=
  emit (EvEntryOpen p name) ;;; ret o.

(** [readCloser.Read(buffer)]; the source drops both results. *)
Definition entry_Read (p name : string) (r : Reader) (buffer : list byte)
  : IO (list byte) :=
  emit (EvEntryRead p name (len buffer)) ;;; ret (fst (Read r buffer)).

(** [getArchiveType] *)
Definition getArchiveType (ar : ArchiveInfo) : IO (ArchiveInfo * option error) :=
  if ai_size ar <? 5 then ret (set_ArchiveType ar ARCHIVE_NA, None)
  else
    filebytes <- make_bytes_const 5 ;;
    o <- os_Open (ai_fullname ar) ;;
    match o with
    | inl err => ret (ar, Some err)
    | inr file =>
        deferring (EvFileClose (ai_fullname ar))
          (rd <- file_Read (ai_fullname ar) file filebytes ;;
           let filebytes := fst rd in
           match snd rd with
           | Some err => ret (ar, Some err)
           | None =>
               if Byte.eqb (at_ filebytes 0) Byte.x50 &&
                  Byte.eqb (at_ filebytes 1) Byte.x4b &&
                  Byte.eqb (at_ filebytes 2) Byte.x03 &&
                  Byte.eqb (at_ filebytes 3) Byte.x04
               then ret (set_ArchiveType ar ARCHIVE_ZIP, None)
               else if Byte.eqb (at_ filebytes 0) Byte.x37 &&
                       Byte.eqb (at_ filebytes 1) Byte.x7a &&
                       Byte.eqb (at_ filebytes 2) Byte.xbc &&
                       Byte.eqb (at_ filebytes 3) Byte.xaf
               then ret (set_ArchiveType ar ARCHIVE_7Z, None)
               else if Byte.eqb (at_ filebytes 0) Byte.x1f &&
                       Byte.eqb (at_ filebytes 1) Byte.x8b
               then ret (set_ArchiveType ar ARCHIVE_TGZ, None)
               else ret (set_ArchiveType ar ARCHIVE_NA, None)
           end)
    end.

(** The loop of [extractZipFileBytes].  Inside the loop [err] is a fresh
    variable; the [return buffer, err] after the loop returns the outer one,
    which is nil there. *)
Fixpoint extractZip_loop (af : ArchivedFile) (fs : list ZipFile)
    (buffer : list byte) : IO (option (list byte) * option error) :=
  match fs with
  | [] => ret (Some buffer, None)
  | fileInZip :: rest =>
      if negb (String.eqb (zf_Name fileInZip) (af_name af))
      then extractZip_loop af rest buffer
      else
        o <- entry_Open (af_archivefile af) (zf_Name fileInZip)
               (zf_Open fileInZip) ;;
        match o with
        | inl err => ret (None, Some err)
        | inr readCloser =>
            deferring (EvEntryClose (af_archivefile af) (zf_Name fileInZip))
              (buffer' <- entry_Read (af_archivefile af) (zf_Name fileInZip)
                            readCloser buffer ;;
               ret (Some buffer', None))
        end
  end.

(** [extractZipFileBytes] *)
Definition extractZipFileBytes (af : ArchivedFile)
  : IO (option (list byte) * option error) :=
  emit (EvCall extractZip) ;;;
  buffer <- make_bytes (w_maxAlloc w) (af_size af) ;;
  o <- zip_OpenReader (af_archivefile af) ;;
  match o with
  | inl err => ret (None, Some (Errorf_Could_not_open (af_archivefile af) err))
  | inr fs =>
      deferring (EvZipClose (af_archivefile af)) (extractZip_loop af fs buffer)
  end.

Fixpoint extract7Z_loop (af : ArchivedFile) (fs : list SzFile)
    (buffer : list byte) : IO (option (list byte) * option error) :=
  match fs with
  | [] => ret (Some buffer, None)
  | fileInZip :: rest =>
      if negb (String.eqb (sz_Name fileInZip) (af_name af))
      then extract7Z_loop af rest buffer
      else
        o <- entry_Open (af_archivefile af) (sz_Name fileInZip)
               (sz_Open fileInZip) ;;
        match o with
        | inl err => ret (None, Some err)
        | inr readCloser =>
            deferring (EvEntryClose (af_archivefile af) (sz_Name fileInZip))
              (buffer' <- entry_Read (af_archivefile af) (sz_Name fileInZip)
                            readCloser buffer ;;
               ret (Some buffer', None))
        end
  end.

(** [extract7ZFileBytes]: the buffer is made after the open, and the reader
    is not closed. *)
Definition extract7ZFileBytes (af : ArchivedFile)
  : IO (option (list byte) * option error) :=
  emit (EvCall extract7Z) ;;;
  o <- sevenzip_OpenReader (af_archivefile af) ;;
  match o with
  | inl err => ret (None, Some (Errorf_Could_not_open (af_archivefile af) err))
  | inr fs =>
      buffer <- make_bytes (w_maxAlloc w) (af_size af) ;;
      extract7Z_loop af fs buffer
  end.

(** The "Locate file" loop of [extractTgzFileBytes]:
    [head, err := Next(); for head != nil && err == nil { ... }].
    Each step is one call of [Next] followed by the loop's test; [es] are the
    entries the reader has not yet returned.  The result is the entry the
    reader is positioned on (none when [Next] failed) and [err]. *)
Fixpoint extractTgz_locate (af : ArchivedFile) (es : list TarEntry)
    (tend : error) : IO (option Reader * option error) :=
  emit (EvTarNext (af_archivefile af)) ;;;
  match es with
  | [] => ret (None, Some tend)
  | e :: rest =>
      if negb (String.eqb (th_Name (te_head e)) (af_name af))
      then extractTgz_locate af rest tend
      else ret (Some (te_data e), None)
  end.

(** [tarReader.Read(buffer)]: reads from the current entry; after a failed
    [Next] it returns [0] and the error, leaving the buffer as it is. *)
Definition tar_Read (p : string) (cur : option Reader) (buffer : list byte)
  : IO (list byte) :=
  emit (EvTarRead p (len buffer)) ;;;
  match cur with
  | Some r => ret (fst (Read r buffer))
  | None => ret buffer
  end.

(** [extractTgzFileBytes] *)
Definition extractTgzFileBytes (af : ArchivedFile)
  : IO (option (list byte) * option error) :=
  emit (EvCall extractTgz) ;;;
  buffer <- make_bytes (w_maxAlloc w) (af_size af) ;;
  o <- os_Open (af_archivefile af) ;;
  match o with
  | inl err => ret (None, Some (Errorf_Could_not_open (af_archivefile af) err))
  | inr file =>
      deferring (EvFileClose (af_archivefile af))
        (g <- gzip_NewReader (af_archivefile af) file ;;
         match g with
         | inl err =>
             ret (None, Some (Errorf_Could_not_open (af_archivefile af) err))
         | inr ts =>
             deferring (EvGzipClose (af_archivefile af))
               (loc <- extractTgz_locate af (tar_entries ts) (tar_end ts) ;;
                buffer' <- tar_Read (af_archivefile af) (fst loc) buffer ;;
                ret (Some buffer', snd loc))
         end)
  end.

(** The entries the three catalogers build. *)
Definition arFile_zip (ar : ArchiveInfo) (fileInZip : ZipFile) : ArchivedFile :=
  mkArchivedFile (ai_fullname ar) ARCHIVE_ZIP (zf_Name fileInZip)
    (int64 (zf_UncompressedSize64 fileInZip))
    (zf_IsDir fileInZip) (zf_Mode fileInZip) (zf_ModTime fileInZip).

Definition arFile_7z (ar : ArchiveInfo) (fileInZip : SzFile) : ArchivedFile :=
  mkArchivedFile (ai_fullname ar) ARCHIVE_7Z (sz_Name fileInZip)
    (sz_Size fileInZip)
    (sz_IsDir fileInZip) (sz_Mode fileInZip) (sz_Modified fileInZip).

Definition arFile_tgz (ar : ArchiveInfo) (head : TarHeader) : ArchivedFile :=
  mkArchivedFile (ai_fullname ar) ARCHIVE_TGZ (th_Name head) (th_Size head)
    false (th_Mode head) (th_ModTime head).

(** [for _, x := range xs { ar.files = append(ar.files, mk x) }] *)
Definition append_each {A : Type} (mk : A -> ArchivedFile) (xs : list A)
    (ar : ArchiveInfo) : ArchiveInfo :=
  fold_left (fun ar x => set_files ar (ai_files ar ++ [mk x])) xs ar.

(** [loadFilesInZipArchive] *)
Definition loadFilesInZipArchive (ar : ArchiveInfo)
  : IO (ArchiveInfo * option error) :=
  emit (EvCall loadZip) ;;;
  o <- zip_OpenReader (ai_fullname ar) ;;
  match o with
  | inl err => ret (ar, Some (Errorf_Could_not_open (ai_fullname ar) err))
  | inr fs =>
      deferring (EvZipClose (ai_fullname ar))
        (ret (append_each (arFile_zip ar) fs ar, None))
  end.

(** [loadFilesIn7ZArchive] *)
Definition loadFilesIn7ZArchive (ar : ArchiveInfo)
  : IO (ArchiveInfo * option error) :=
  emit (EvCall load7Z) ;;;
  o <- sevenzip_OpenReader (ai_fullname ar) ;;
  match o with
  | inl err => ret (ar, Some (Errorf_Could_not_open (ai_fullname ar) err))
  | inr fs =>
      deferring (EvSevenzipClose (ai_fullname ar))
        (ret (append_each (arFile_7z ar) fs ar, None))
  end.

(** The loop of [loadFilesInTgzArchive], one call of [Next] and one test of
    [head != nil && err == nil] per step; the result is the handle and the
    [err] the loop ends with. *)
Fixpoint loadTgz_loop (es : list TarEntry) (tend : error) (ar : ArchiveInfo)
  : IO (ArchiveInfo * option error) :=
  emit (EvTarNext (ai_fullname ar)) ;;;
  match es with
  | [] => ret (ar, Some tend)
  | e :: rest =>
      loadTgz_loop rest tend
        (set_files ar (ai_files ar ++ [arFile_tgz ar (te_head e)]))
  end.

(** [loadFilesInTgzArchive] *)
Definition loadFilesInTgzArchive (ar : ArchiveInfo)
  : IO (ArchiveInfo * option error) :=
  emit (EvCall loadTgz) ;;;
  o <- os_Open (ai_fullname ar) ;;
  match o with
  | inl err => ret (ar, Some (Errorf_Could_not_open (ai_fullname ar) err))
  | inr file =>
      deferring (EvFileClose (ai_fullname ar))
        (g <- gzip_NewReader (ai_fullname ar) file ;;
         match g with
         | inl err => ret (ar, Some (Errorf_Could_not_open (ai_fullname ar) err))
         | inr ts =>
             deferring (EvGzipClose (ai_fullname ar))
               (r <- loadTgz_loop (tar_entries ts) (tar_end ts) ar ;;
                if error_eqb_EOF (snd r) then ret (fst r, None)
                else ret r)
         end)
  end.

(** The second half of [GetArchiveInfo], from the comment "Verify there's a
    file there" on, for the handle [ar] whose [path] and [name] are set. *)
Definition GetArchiveInfo_verify (ar : ArchiveInfo)
  : IO (ArchiveInfo * option error) :=
  let ar := set_fullname ar (w_Join w (ai_path ar) (ai_name ar)) in
  st <- os_Stat (ai_fullname ar) ;;
  typed <-
    match st with
    | inr fsize => getArchiveType (set_size ar fsize)
    | inl err => ret (ar, Some err)
    end ;;
  match snd typed with
  | None =>
      let ar := fst typed in
      if ai_ArchiveType ar =? ARCHIVE_7Z then loadFilesIn7ZArchive ar
      else if ai_ArchiveType ar =? ARCHIVE_TGZ then loadFilesInTgzArchive ar
      else if ai_ArchiveType ar =? ARCHIVE_ZIP then loadFilesInZipArchive ar
      else ret (ar, None)
  | Some err => ret typed
  end.

(** [GetArchiveInfo]: the handle and the error it returns.  The bare
    [return] of the first branch returns the named results as they stand:
    the zero handle and a nil error. *)
Definition GetArchiveInfo (path : string) : IO (ArchiveInfo * option error) :=
  let ar := zero_ArchiveInfo in
  if strings_Contains path (String (w_PathSeparator w) EmptyString)
  then
    let pathName := w_Dir w path in
    if Z.of_nat (String.length pathName) =? 0
    then fmt_Printf Invalid_input_path ;;; ret (ar, None)
    else GetArchiveInfo_verify (set_name (set_path ar pathName) (w_Base w path))
  else
    wd <- os_Getwd ;;
    GetArchiveInfo_verify (set_name (set_path ar (fst wd)) path).

(** [ArchivedFile.GetBytes] *)
Definition GetBytes (af : ArchivedFile) : IO (option (list byte) * option error) :=
  if af_archivetype af =? ARCHIVE_7Z then extract7ZFileBytes af
  else if af_archivetype af =? ARCHIVE_TGZ then extractTgzFileBytes af
  else if af_archivetype af =? ARCHIVE_ZIP then extractZipFileBytes af
  else ret (None, Some (errors_New "unsupported archive type")).

End Archiver.

(** ** Fixtures

    A small file system in the shape of the package's test assets, used to
    run the functions above on concrete inputs. *)

Module Fixtures.

Definition bytes_of (s : string) : list byte := list_byte_of_string s.

Definition whole (s : string) : Reader :=
  mkReader (bytes_of s) (String.length s).

(** A decoder that hands out its payload [k] bytes at a time. *)
Definition chunked (k : nat) (s : string) : Reader := mkReader (bytes_of s) k.

Definition zip_magic : list byte := [Byte.x50; Byte.x4b; Byte.x03; Byte.x04; Byte.x14].
Definition sz_magic : list byte := [Byte.x37; Byte.x7a; Byte.xbc; Byte.xaf; Byte.x27; Byte.x1c].
Definition gz_magic : list byte := [Byte.x1f; Byte.x8b; Byte.x08; Byte.x00].

Definition test_zip : list ZipFile :=
  [ mkZipFile "docs/" 0 true 2147484157 1700000000 (inr (whole ""));
    mkZipFile "dirhelp.txt" 14 false 420 1700000001 (inr (whole "subdirectories")) ].

(** The second entry's decoder delivers 4 bytes per [Read]. *)
Definition stream_zip : list ZipFile :=
  [ mkZipFile "small.txt" 2 false 420 1700000002 (inr (whole "ok"));
    mkZipFile "large.txt" 9 false 420 1700000003 (inr (chunked 4 "vulputate")) ].

Definition sz_test : list SzFile :=
  [ mkSzFile "random_text.txt" 9 false 420 1700000004 (inr (whole "vulputate"));
    mkSzFile "a.txt" 1 false 420 1700000005 (inr (whole "a"));
    mkSzFile "b.txt" 1 false 420 1700000006 (inr (whole "b")) ].

Definition tgz_test : TarStream :=
  mkTarStream
    [ mkTarEntry (mkTarHeader "sub/" 0 true 2147484141 1700000007) (whole "");
      mkTarEntry (mkTarHeader "sub/random_text.txt" 9 false 420 1700000008)
        (whole "vulputate") ]
    io_EOF.

(** A tar stream damaged after its first entry. *)
Definition broken_tgz : TarStream :=
  mkTarStream
    [ mkTarEntry (mkTarHeader "first.txt" 5 false 420 1700000009) (whole "first") ]
    (errors_New "unexpected EOF").

Definition no_such_file : error := errors_New "no such file or directory".

Definition files : list (string * list byte) :=
  [ ("/data/test.zip", zip_magic);
    ("/data/stream.zip", zip_magic);
    ("/data/bad.zip", zip_magic);
    ("/data/sz_test.7z", sz_magic);
    ("/data/tgz_test.tgz", gz_magic ++ [Byte.x01]);
    ("/data/broken.tgz", gz_magic ++ [Byte.x02]);
    ("/data/notes.txt", bytes_of "plain text");
    ("/data/tiny", [Byte.x1f; Byte.x8b; Byte.x08]) ].

Fixpoint lookup {A : Type} (k : string) (m : list (string * A)) : option A :=
  match m with
  | [] => None
  | (k', v) :: m' => if String.eqb k k' then Some v else lookup k m'
  end.

Definition fx_Dir (p : string) : string :=
  match lookup p
          [ ("/data/test.zip", "/data"); ("/data/stream.zip", "/data");
            ("/data/bad.zip", "/data"); ("/data/sz_test.7z", "/data");
            ("/data/tgz_test.tgz", "/data"); ("/data/broken.tgz", "/data");
            ("/data/notes.txt", "/data"); ("/data/tiny", "/data");
            ("/nowhere/x.zip", "/nowhere") ] with
  | Some d => d
  | None => "."
  end.

Definition fx_Base (p : string) : string :=
  match lookup p
          [ ("/data/test.zip", "test.zip"); ("/data/stream.zip", "stream.zip");
            ("/data/bad.zip", "bad.zip"); ("/data/sz_test.7z", "sz_test.7z");
            ("/data/tgz_test.tgz", "tgz_test.tgz");
            ("/data/broken.tgz", "broken.tgz");
            ("/data/notes.txt", "notes.txt"); ("/data/tiny", "tiny");
            ("/nowhere/x.zip", "x.zip") ] with
  | Some b => b
  | None => p
  end.

Definition fx_Join (d b : string) : string :=
  String.append d (String.append "/" b).

Definition fx_Stat (p : string) : error + Z :=
  match lookup p files with
  | Some bs => inr (len bs)
  | None => inl no_such_file
  end.

Definition fx_Open (p : string) : error + OsFile :=
  match lookup p files with
  | Some bs => inr (mkOsFile bs None)
  | None => inl no_such_file
  end.

Definition fx_zip (p : string) : error + list ZipFile :=
  match lookup p [("/data/test.zip", test_zip); ("/data/stream.zip", stream_zip)] with
  | Some fs => inr fs
  | None => inl (errors_New "zip: not a valid zip file")
  end.

Definition fx_sevenzip (p : string) : error + list SzFile :=
  match lookup p [("/data/sz_test.7z", sz_test)] with
  | Some fs => inr fs
  | None => inl (errors_New "sevenzip: not a valid 7-zip file")
  end.

Definition fx_gzip (f : OsFile) : error + TarStream :=
  match skipn 4 (file_bytes f) with
  | [b] =>
      if Byte.eqb b Byte.x01 then inr tgz_test
      else if Byte.eqb b Byte.x02 then inr broken_tgz
      else inl (errors_New "gzip: invalid header")
  | _ => inl (errors_New "gzip: invalid header")
  end.

(** The allocation limit of the 64-bit runtime: 2^48 bytes. *)
Definition maxAlloc : Z := 2 ^ 48.

Definition world : World :=
  mkWorld "/"%char ("/work", None) fx_Dir fx_Base fx_Join
    fx_Stat fx_Open fx_zip fx_sevenzip fx_gzip maxAlloc.

(** A Zip archive that holds the name "a.txt" twice, with different sizes
    and payloads, as the Zip format allows. *)
Definition dup_zip : list ZipFile :=
  [ mkZipFile "a.txt" 3 false 420 1700000010 (inr (whole "one"));
    mkZipFile "b.txt" 3 false 420 1700000011 (inr (whole "two"));
    mkZipFile "a.txt" 5 false 420 1700000012 (inr (whole "three")) ].

(** A file system that holds that one archive, at "/data/dup.zip". *)
Definition world_dup : World :=
  mkWorld "/"%char ("/work", None)
    (fun _ => "/data") (fun _ => "dup.zip") fx_Join
    (fun _ => inr 5) (fun _ => inr (mkOsFile zip_magic None))
    (fun _ => inr dup_zip)
    (fun _ => inl (errors_New "sevenzip: not a valid 7-zip file"))
    (fun _ => inl (errors_New "gzip: invalid header"))
    maxAlloc.

End Fixtures.

(** ** Vocabulary of the properties *)

(** A run that made no call to a cataloger, an extractor or a codec. *)
Definition no_codec (tr : list event) : Prop :=
  Forall (fun e => is_ev_codec e = false) tr.

(** The first entry of a container listing that bears the name [n]. *)
Definition first_named {A : Type} (name_of : A -> string) (n : string)
    (xs : list A) : option A :=
  find (fun x => String.eqb (name_of x) n) xs.

(** Specification side of extraction: what the codec of the entry's tag
    reports for the entry's name in the container the entry points to, that
    is the result of opening the first entry of that name.  [None] when the
    container does not open, holds no entry of that name, or the tag is not
    one of the three codecs. *)
Definition codec_open (w : World) (af : ArchivedFile) : option (error + Reader) :=
  if af_archivetype af =? ARCHIVE_ZIP then
    match w_zip w (af_archivefile af) with
    | inr fs => option_map zf_Open (first_named zf_Name (af_name af) fs)
    | inl _ => None
    end
  else if af_archivetype af =? ARCHIVE_7Z then
    match w_sevenzip w (af_archivefile af) with
    | inr fs => option_map sz_Open (first_named sz_Name (af_name af) fs)
    | inl _ => None
    end
  else if af_archivetype af =? ARCHIVE_TGZ then
    match w_Open w (af_archivefile af) with
    | inr file =>
        match w_gzip w file with
        | inr ts =>
            option_map (fun e => inr (te_data e))
              (first_named (fun e => th_Name (te_head e)) (af_name af)
                 (tar_entries ts))
        | inl _ => None
        end
    | inl _ => None
    end
  else None.

(** The entry [e] is what a cataloger builds for an entry of the container
    at [af_archivefile e]. *)
Definition cataloged_from (w : World) (e : ArchivedFile) : Prop :=
  (af_archivetype e = ARCHIVE_ZIP /\
   exists fs f, w_zip w (af_archivefile e) = inr fs /\ In f fs /\
                zf_Name f = af_name e) \/
  (af_archivetype e = ARCHIVE_7Z /\
   exists fs f, w_sevenzip w (af_archivefile e) = inr fs /\ In f fs /\
                sz_Name f = af_name e) \/
  (af_archivetype e = ARCHIVE_TGZ /\
   exists file ts te,
     w_Open w (af_archivefile e) = inr file /\ w_gzip w file = inr ts /\
     In te (tar_entries ts) /\ th_Name (te_head te) = af_name e).

(** What holds of the handle [ar], the error [err] and the calls [tr] of a
    run of [GetArchiveInfo]. *)
Definition handle_inv (w : World) (ar : ArchiveInfo) (err : option error)
    (tr : list event) : Prop :=
  ((forall m, ~ In (EvCall m) tr) -> ai_files ar = []) /\
  (ai_ArchiveType ar = ARCHIVE_NA \/ ai_ArchiveType ar = ARCHIVE_UNINIT ->
   ai_files ar = [] /\ no_codec tr) /\
  (err <> None -> ai_ArchiveType ar <> ARCHIVE_TGZ -> ai_files ar = []) /\
  Forall (cataloged_from w) (ai_files ar).


(** A call that opens or reads the content of an entry. *)
Definition is_ev_content (e : event) : bool :=
  match e with
  | EvEntryOpen _ _ | EvEntryRead _ _ _ | EvTarRead _ _ => true
  | _ => false
  end.

Definition is_ev_sevenzip_close (e : event) : bool :=
  match e with
  | EvSevenzipClose _ => true
  | _ => false
  end.

(** The five constants of [ArchiveType]. *)
Definition known_type (t : ArchiveType) : Prop :=
  t = ARCHIVE_UNINIT \/ t = ARCHIVE_NA \/ t = ARCHIVE_ZIP \/
  t = ARCHIVE_TGZ \/ t = ARCHIVE_7Z.

(** The catalog of [ar] is the listing of its container, entry for entry
    and in the codec's order. *)
Definition listing_of (w : World) (ar : ArchiveInfo) : Prop :=
  (ai_ArchiveType ar = ARCHIVE_ZIP ->
   exists fs, w_zip w (ai_fullname ar) = inr fs /\
              ai_files ar = map (arFile_zip ar) fs) /\
  (ai_ArchiveType ar = ARCHIVE_7Z ->
   exists fs, w_sevenzip w (ai_fullname ar) = inr fs /\
              ai_files ar = map (arFile_7z ar) fs) /\
  (ai_ArchiveType ar = ARCHIVE_TGZ ->
   exists file ts,
     w_Open w (ai_fullname ar) = inr file /\ w_gzip w file = inr ts /\
     tar_end ts = io_EOF /\
     ai_files ar = map (fun e => arFile_tgz ar (te_head e)) (tar_entries ts)).

(** What a run of [GetArchiveInfo_verify] from the handle [ar0] establishes
    of the handle [ar], the error [err] and the calls [tr] it ends with. *)
Definition catalog_inv (w : World) (ar0 ar : ArchiveInfo)
    (err : option error) (tr : list event) : Prop :=
  ai_path ar = ai_path ar0 /\
  ai_name ar = ai_name ar0 /\
  ai_fullname ar = w_Join w (ai_path ar0) (ai_name ar0) /\
  (forall fsize, w_Stat w (ai_fullname ar) = inr fsize -> ai_size ar = fsize) /\
  (forall e, w_Stat w (ai_fullname ar) = inl e ->
             err = Some e /\ ai_size ar = 0 /\
             ai_ArchiveType ar = ARCHIVE_UNINIT /\ ai_files ar = [] /\
             tr = [EvStat (ai_fullname ar)]) /\
  known_type (ai_ArchiveType ar) /\
  Forall (fun e => af_archivefile e = ai_fullname ar /\
                   af_archivetype e = ai_ArchiveType ar) (ai_files ar) /\
  Forall (fun e => is_ev_content e = false) tr /\
  (err = None -> listing_of w ar).

(** ** Lookup by name *)

Section Lookup.

Context {A : Type} (f : A -> bool).

Lemma IndexFunc_from_miss (s : list A) (i : Z) :
  0 <= i -> IndexFunc_from i s f = -1 -> forall x, In x s -> f x = false.
Proof.
  revert i; induction s as [|a s IH]; intros i Hi Hidx x Hin.
  - destruct Hin.
  - simpl in Hidx. destruct (f a) eqn:Fa; [lia|].
    destruct Hin as [<-|Hin]; [exact Fa|].
    apply (IH (i + 1)); [lia|exact Hidx|exact Hin].
Qed.

Lemma IndexFunc_from_range (s : list A) (i : Z) :
  0 <= i -> IndexFunc_from i s f = -1 \/ i <= IndexFunc_from i s f < i + len s.
Proof.
  unfold len. revert i; induction s as [|a s IH]; intros i Hi; simpl.
  - now left.
  - destruct (f a); [right; lia|].
    destruct (IH (i + 1)) as [E|R]; [lia|now left|right; lia].
Qed.

Lemma IndexFunc_from_hit (s : list A) (i : Z) :
  0 <= i -> IndexFunc_from i s f <> -1 ->
  exists x, nth_error s (Z.to_nat (IndexFunc_from i s f - i)) = Some x /\
            f x = true /\
            forall j y, (j < Z.to_nat (IndexFunc_from i s f - i))%nat ->
                        nth_error s j = Some y -> f y = false.
Proof.
  revert i; induction s as [|a s IH]; intros i Hi Hidx; simpl in *.
  - congruence.
  - destruct (f a) eqn:Fa.
    + replace (i - i) with 0 by lia. exists a; simpl.
      repeat split; auto. intros j y Hj; lia.
    + destruct (IH (i + 1)) as (x & Hn & Fx & Hfirst); [lia|exact Hidx|].
      destruct (IndexFunc_from_range s (i + 1)) as [E|R]; [lia|congruence|].
      set (k := IndexFunc_from (i + 1) s f) in *.
      replace (Z.to_nat (k - i)) with (S (Z.to_nat (k - (i + 1)))) by lia.
      exists x; simpl. repeat split; auto.
      intros [|j] y Hj Hy; simpl in Hy.
      * congruence.
      * apply (Hfirst j); [lia|exact Hy].
Qed.

End Lookup.

(** C3.  [File] is an exact-match linear scan: a returned entry bears exactly
    the name asked for and is the first such entry of the catalog; when
    [File] returns nil, no entry of the catalog bears that name. *)
Theorem File_exact_first_match (ai : ArchiveInfo) (fname : string) :
  match File ai fname with
  | Some e =>
      af_name e = fname /\
      exists k, nth_error (ai_files ai) k = Some e /\
                forall j e', (j < k)%nat ->
                             nth_error (ai_files ai) j = Some e' ->
                             af_name e' <> fname
  | None => forall e, In e (ai_files ai) -> af_name e <> fname
  end.
Proof.
  unfold File, IndexFunc.
  set (p := fun e => String.eqb (af_name e) fname).
  destruct (len (ai_files ai) =? 0) eqn:L.
  - apply Z.eqb_eq in L. unfold len in L.
    destruct (ai_files ai); [intros e []|simpl in L; lia].
  - destruct (IndexFunc_from 0 (ai_files ai) p =? -1) eqn:I.
    + apply Z.eqb_eq in I. intros e He Hn.
      pose proof (IndexFunc_from_miss p _ 0 (Z.le_refl 0) I e He) as F.
      unfold p in F. apply String.eqb_neq in F. contradiction.
    + apply Z.eqb_neq in I.
      destruct (IndexFunc_from_hit p _ 0 (Z.le_refl 0) I) as (x & Hn & Px & Hfirst).
      rewrite Z.sub_0_r in Hn, Hfirst. rewrite Hn.
      split; [apply String.eqb_eq; exact Px|].
      eexists; split; [exact Hn|].
      intros j e' Hj He' Heq.
      pose proof (Hfirst j e' Hj He') as F.
      unfold p in F. apply String.eqb_neq in F. contradiction.
Qed.

(** The match is sensitive to case and to the separator used. *)
Example File_case_and_separator :
  let ai := set_files zero_ArchiveInfo
              [mkArchivedFile "/data/test.zip" ARCHIVE_ZIP "docs/Readme.txt"
                 3 false 420 0] in
  File ai "docs/readme.txt" = None /\
  File ai "docs\Readme.txt" = None /\
  File ai "Readme.txt" = None /\
  option_map af_name (File ai "docs/Readme.txt") = Some "docs/Readme.txt".
Proof. repeat split. Qed.

(** ** Detection *)

Lemma byte_eqb_eq (a b : byte) : Byte.eqb a b = true <-> a = b.
Proof.
  split; [apply Byte.byte_dec_bl|apply Byte.byte_dec_lb].
Qed.

Lemma byte_eqb_neq (a b : byte) : Byte.eqb a b = false <-> a <> b.
Proof.
  split.
  - intros E H. apply byte_eqb_eq in H. congruence.
  - intros H. destruct (Byte.eqb a b) eqn:E; [|reflexivity].
    apply byte_eqb_eq in E. contradiction.
Qed.

Ltac absurd_neq :=
  match goal with
  | H : _ <> _ |- _ => exfalso; apply H; reflexivity
  end.

Ltac byte_cases :=
  repeat match goal with
         | H : Byte.eqb _ _ = true |- _ => apply byte_eqb_eq in H
         | H : Byte.eqb _ _ = false |- _ => apply byte_eqb_neq in H
         end.

(** C7.  When the recorded file size is below 5, [getArchiveType] sets
    NotAnArchive and returns a nil error without calling the outside world:
    the file is neither opened nor read. *)
Theorem getArchiveType_small_file (w : World) (ar : ArchiveInfo) :
  ai_size ar < 5 ->
  getArchiveType w ar = (Ok (set_ArchiveType ar ARCHIVE_NA, None), []).
Proof.
  intros H. unfold getArchiveType.
  apply Z.ltb_lt in H. rewrite H. reflexivity.
Qed.

Lemma getArchiveType_small_file_witness :
  getArchiveType Fixtures.world
    (mkArchiveInfo "/data" "tiny" "/data/tiny" 3 ARCHIVE_UNINIT []) =
  (Ok (mkArchiveInfo "/data" "tiny" "/data/tiny" 3 ARCHIVE_NA [], None), []).
Proof.
  apply (getArchiveType_small_file Fixtures.world
           (mkArchiveInfo "/data" "tiny" "/data/tiny" 3 ARCHIVE_UNINIT [])).
  simpl. lia.
Defined.

(** Seen from [GetArchiveInfo]: when [os.Stat] reports fewer than 5 bytes,
    the only call made is that [os.Stat]; the file is not opened. *)
Lemma GetArchiveInfo_verify_small_file (w : World) (ar0 : ArchiveInfo)
    (fsize : Z) :
  w_Stat w (w_Join w (ai_path ar0) (ai_name ar0)) = inr fsize ->
  fsize < 5 ->
  GetArchiveInfo_verify w ar0 =
    (Ok (set_ArchiveType
           (set_size (set_fullname ar0 (w_Join w (ai_path ar0) (ai_name ar0)))
              fsize) ARCHIVE_NA, None),
     [EvStat (w_Join w (ai_path ar0) (ai_name ar0))]).
Proof.
  intros Hstat Hsmall.
  unfold GetArchiveInfo_verify, os_Stat, getArchiveType, bind, emit, ret.
  simpl. rewrite Hstat. simpl.
  apply Z.ltb_lt in Hsmall. rewrite Hsmall. reflexivity.
Qed.

(** C2.  For a readable file of at least 5 bytes, [getArchiveType] opens the
    file, reads 5 bytes and sets the type from the leading bytes alone:
    50 4B 03 04 gives Zip, 37 7A BC AF gives SevenZip, 1F 8B gives
    GzippedTar, anything else NotAnArchive; the error is nil. *)
Theorem getArchiveType_by_magic (w : World) (ar : ArchiveInfo) (f : OsFile) :
  5 <= ai_size ar ->
  w_Open w (ai_fullname ar) = inr f ->
  file_read_err f = None ->
  (5 <= List.length (file_bytes f))%nat ->
  exists t,
    getArchiveType w ar =
      (Ok (set_ArchiveType ar t, None),
       [EvOpen (ai_fullname ar); EvFileRead (ai_fullname ar) 5;
        EvFileClose (ai_fullname ar)]) /\
    (firstn 4 (file_bytes f) = [Byte.x50; Byte.x4b; Byte.x03; Byte.x04] ->
     t = ARCHIVE_ZIP) /\
    (firstn 4 (file_bytes f) = [Byte.x37; Byte.x7a; Byte.xbc; Byte.xaf] ->
     t = ARCHIVE_7Z) /\
    (firstn 2 (file_bytes f) = [Byte.x1f; Byte.x8b] -> t = ARCHIVE_TGZ) /\
    (firstn 4 (file_bytes f) <> [Byte.x50; Byte.x4b; Byte.x03; Byte.x04] ->
     firstn 4 (file_bytes f) <> [Byte.x37; Byte.x7a; Byte.xbc; Byte.xaf] ->
     firstn 2 (file_bytes f) <> [Byte.x1f; Byte.x8b] ->
     t = ARCHIVE_NA).
Proof.
  intros Hsize Hopen Herr Hlen.
  unfold getArchiveType.
  apply Z.ltb_ge in Hsize. rewrite Hsize.
  destruct f as [bs rerr]; simpl in Herr, Hlen. subst rerr.
  destruct bs as [|b0 [|b1 [|b2 [|b3 [|b4 rest]]]]]; simpl in Hlen; try lia.
  unfold make_bytes, os_Open, file_Read, deferring, bind, emit, ret.
  simpl. rewrite Hopen. simpl. unfold at_; simpl.
  destruct (Byte.eqb b0 Byte.x50) eqn:E0, (Byte.eqb b1 Byte.x4b) eqn:E1,
           (Byte.eqb b2 Byte.x03) eqn:E2, (Byte.eqb b3 Byte.x04) eqn:E3;
    simpl;
    try (byte_cases; subst; eexists; split; [reflexivity|];
         repeat split; intros; first [absurd_neq | congruence]).
  all: destruct (Byte.eqb b0 Byte.x37) eqn:F0, (Byte.eqb b1 Byte.x7a) eqn:F1,
                (Byte.eqb b2 Byte.xbc) eqn:F2, (Byte.eqb b3 Byte.xaf) eqn:F3;
    simpl;
    try (byte_cases; subst; eexists; split; [reflexivity|];
         repeat split; intros; first [absurd_neq | congruence]).
  all: destruct (Byte.eqb b0 Byte.x1f) eqn:G0, (Byte.eqb b1 Byte.x8b) eqn:G1;
    simpl;
    byte_cases; subst; eexists; (split; [reflexivity|]);
    repeat split; intros; first [absurd_neq | congruence].
Qed.

Lemma getArchiveType_by_magic_witness :
  exists t,
    getArchiveType Fixtures.world
      (mkArchiveInfo "/data" "test.zip" "/data/test.zip" 5 ARCHIVE_UNINIT []) =
    (Ok (mkArchiveInfo "/data" "test.zip" "/data/test.zip" 5 t [], None),
     [EvOpen "/data/test.zip"; EvFileRead "/data/test.zip" 5;
      EvFileClose "/data/test.zip"]) /\
    t = ARCHIVE_ZIP.
Proof.
  destruct (getArchiveType_by_magic Fixtures.world
              (mkArchiveInfo "/data" "test.zip" "/data/test.zip" 5 ARCHIVE_UNINIT [])
              (mkOsFile Fixtures.zip_magic None))
    as (t & Hrun & Hzip & _).
  - simpl. lia.
  - reflexivity.
  - reflexivity.
  - simpl. lia.
  - exists t. split; [exact Hrun|apply Hzip; reflexivity].
Defined.

(** The signatures at work on the fixture files, file extension ignored. *)
Example detect_fixtures :
  let type_of p :=
    match fst (GetArchiveInfo Fixtures.world p) with
    | Ok (ar, None) => Some (ai_ArchiveType ar)
    | _ => None
    end in
  type_of "/data/test.zip" = Some ARCHIVE_ZIP /\
  type_of "/data/sz_test.7z" = Some ARCHIVE_7Z /\
  type_of "/data/tgz_test.tgz" = Some ARCHIVE_TGZ /\
  type_of "/data/notes.txt" = Some ARCHIVE_NA /\
  type_of "/data/tiny" = Some ARCHIVE_NA.
Proof. repeat split. Qed.

(** ** Dispatch of [GetBytes] *)

Lemma GetBytes_tgz (w : World) (af : ArchivedFile) :
  af_archivetype af = ARCHIVE_TGZ -> GetBytes w af = extractTgzFileBytes w af.
Proof. unfold GetBytes. intros ->. reflexivity. Qed.

(** C8.  [GetBytes] hands an entry tagged Zip, SevenZip or GzippedTar to the
    extractor of that tag; for any other tag it returns no bytes and the
    error "unsupported archive type", without panicking and without touching
    the outside world. *)
Theorem GetBytes_dispatch (w : World) (af : ArchivedFile) :
  (af_archivetype af = ARCHIVE_ZIP ->
   GetBytes w af = extractZipFileBytes w af) /\
  (af_archivetype af = ARCHIVE_7Z ->
   GetBytes w af = extract7ZFileBytes w af) /\
  (af_archivetype af = ARCHIVE_TGZ ->
   GetBytes w af = extractTgzFileBytes w af) /\
  (af_archivetype af <> ARCHIVE_ZIP ->
   af_archivetype af <> ARCHIVE_7Z ->
   af_archivetype af <> ARCHIVE_TGZ ->
   GetBytes w af =
     (Ok (None, Some (errors_New "unsupported archive type")), [])).
Proof.
  unfold GetBytes. repeat split.
  - intros ->. reflexivity.
  - intros ->. reflexivity.
  - intros ->. reflexivity.
  - intros Hz H7 Ht.
    apply Z.eqb_neq in Hz, H7, Ht. rewrite Hz, H7, Ht. reflexivity.
Qed.

Lemma GetBytes_dispatch_witness :
  GetBytes Fixtures.world
    (mkArchivedFile "/data/test.zip" ARCHIVE_NA "dirhelp.txt" 14 false 420 0) =
    (Ok (None, Some (errors_New "unsupported archive type")), []) /\
  GetBytes Fixtures.world
    (mkArchivedFile "/data/test.zip" ARCHIVE_ZIP "dirhelp.txt" 14 false 420 0) =
    extractZipFileBytes Fixtures.world
      (mkArchivedFile "/data/test.zip" ARCHIVE_ZIP "dirhelp.txt" 14 false 420 0) /\
  GetBytes Fixtures.world
    (mkArchivedFile "/data/sz_test.7z" ARCHIVE_7Z "a.txt" 1 false 420 0) =
    extract7ZFileBytes Fixtures.world
      (mkArchivedFile "/data/sz_test.7z" ARCHIVE_7Z "a.txt" 1 false 420 0) /\
  GetBytes Fixtures.world
    (mkArchivedFile "/data/tgz_test.tgz" ARCHIVE_TGZ "sub/" 0 false 420 0) =
    extractTgzFileBytes Fixtures.world
      (mkArchivedFile "/data/tgz_test.tgz" ARCHIVE_TGZ "sub/" 0 false 420 0).
Proof.
  split; [|split; [|split]].
  - destruct (GetBytes_dispatch Fixtures.world
                (mkArchivedFile "/data/test.zip" ARCHIVE_NA "dirhelp.txt" 14
                   false 420 0)) as (_ & _ & _ & H).
    apply H; simpl; unfold ARCHIVE_NA, ARCHIVE_ZIP, ARCHIVE_7Z, ARCHIVE_TGZ; lia.
  - destruct (GetBytes_dispatch Fixtures.world
                (mkArchivedFile "/data/test.zip" ARCHIVE_ZIP "dirhelp.txt" 14
                   false 420 0)) as (H & _).
    apply H. reflexivity.
  - destruct (GetBytes_dispatch Fixtures.world
                (mkArchivedFile "/data/sz_test.7z" ARCHIVE_7Z "a.txt" 1
                   false 420 0)) as (_ & H & _).
    apply H. reflexivity.
  - destruct (GetBytes_dispatch Fixtures.world
                (mkArchivedFile "/data/tgz_test.tgz" ARCHIVE_TGZ "sub/" 0
                   false 420 0)) as (_ & _ & H & _).
    apply H. reflexivity.
Defined.

(** ** Cataloging *)

Lemma set_files_same (ar : ArchiveInfo) : set_files ar (ai_files ar) = ar.
Proof. destruct ar; reflexivity. Qed.

Lemma set_files_twice (ar : ArchiveInfo) (xs ys : list ArchivedFile) :
  set_files (set_files ar xs) ys = set_files ar ys.
Proof. reflexivity. Qed.

Lemma append_each_spec {A : Type} (mk : A -> ArchivedFile) (xs : list A)
    (ar : ArchiveInfo) :
  append_each mk xs ar = set_files ar (ai_files ar ++ map mk xs).
Proof.
  unfold append_each. revert ar.
  induction xs as [|x xs IH]; intros ar; simpl.
  - rewrite app_nil_r. symmetry. apply set_files_same.
  - rewrite IH. simpl. rewrite <- app_assoc. reflexivity.
Qed.

Lemma arFile_tgz_set_files (ar : ArchiveInfo) (fs : list ArchivedFile)
    (h : TarHeader) :
  arFile_tgz (set_files ar fs) h = arFile_tgz ar h.
Proof. reflexivity. Qed.

(** The tar loop never panics: it appends one entry per header and ends with
    the error of the failing [Next]. *)
Lemma loadTgz_loop_spec (es : list TarEntry) (tend : error) (ar : ArchiveInfo) :
  fst (loadTgz_loop es tend ar) =
  Ok (set_files ar
        (ai_files ar ++ map (fun e => arFile_tgz ar (te_head e)) es),
      Some tend).
Proof.
  revert ar. induction es as [|e es IH]; intros ar.
  - simpl. rewrite app_nil_r, set_files_same. reflexivity.
  - simpl loadTgz_loop. unfold bind, emit. simpl fst.
    rewrite IH. simpl. rewrite <- app_assoc. reflexivity.
Qed.

Lemma loadFilesInZipArchive_spec (w : World) (ar : ArchiveInfo) :
  fst (loadFilesInZipArchive w ar) =
  match w_zip w (ai_fullname ar) with
  | inl err => Ok (ar, Some (Errorf_Could_not_open (ai_fullname ar) err))
  | inr fs => Ok (set_files ar (ai_files ar ++ map (arFile_zip ar) fs), None)
  end.
Proof.
  unfold loadFilesInZipArchive, zip_OpenReader, bind, emit, ret, deferring.
  simpl. destruct (w_zip w (ai_fullname ar)); simpl; [reflexivity|].
  rewrite append_each_spec. reflexivity.
Qed.

Lemma loadFilesIn7ZArchive_spec (w : World) (ar : ArchiveInfo) :
  fst (loadFilesIn7ZArchive w ar) =
  match w_sevenzip w (ai_fullname ar) with
  | inl err => Ok (ar, Some (Errorf_Could_not_open (ai_fullname ar) err))
  | inr fs => Ok (set_files ar (ai_files ar ++ map (arFile_7z ar) fs), None)
  end.
Proof.
  unfold loadFilesIn7ZArchive, sevenzip_OpenReader, bind, emit, ret, deferring.
  simpl. destruct (w_sevenzip w (ai_fullname ar)); simpl; [reflexivity|].
  rewrite append_each_spec. reflexivity.
Qed.

Lemma loadFilesInTgzArchive_spec (w : World) (ar : ArchiveInfo) :
  fst (loadFilesInTgzArchive w ar) =
  match w_Open w (ai_fullname ar) with
  | inl err => Ok (ar, Some (Errorf_Could_not_open (ai_fullname ar) err))
  | inr file =>
      match w_gzip w file with
      | inl err => Ok (ar, Some (Errorf_Could_not_open (ai_fullname ar) err))
      | inr ts =>
          Ok (set_files ar
                (ai_files ar ++
                 map (fun e => arFile_tgz ar (te_head e)) (tar_entries ts)),
              if error_eqb_EOF (Some (tar_end ts)) then None
              else Some (tar_end ts))
      end
  end.
Proof.
  unfold loadFilesInTgzArchive, os_Open, gzip_NewReader, bind, emit, ret,
    deferring.
  simpl. destruct (w_Open w (ai_fullname ar)) as [err|file]; simpl;
    [reflexivity|].
  destruct (w_gzip w file) as [err|ts]; simpl; [reflexivity|].
  rewrite loadTgz_loop_spec. simpl.
  destruct (tar_end ts); reflexivity.
Qed.

(** C5.  When [zip.OpenReader] (resp. [sevenzip.OpenReader]) fails, the Zip
    (resp. 7z) cataloger returns the error wrapped in a message that names
    the path and leaves the handle, entries included, as it was; when it
    succeeds, every entry is appended and the error is nil.  The gzipped-tar
    cataloger alone can fail midway: when the stream breaks after some
    headers, the error is returned and the entries read so far stay in the
    catalog. *)
Theorem cataloging_failure_modes (w : World) (ar : ArchiveInfo) :
  (forall err, w_zip w (ai_fullname ar) = inl err ->
     fst (loadFilesInZipArchive w ar) =
     Ok (ar, Some (wrapError
                     (String.append "Could not open "
                        (String.append (ai_fullname ar)
                           (String.append ".  " (Error err)))) err))) /\
  (forall fs, w_zip w (ai_fullname ar) = inr fs ->
     fst (loadFilesInZipArchive w ar) =
     Ok (set_files ar (ai_files ar ++ map (arFile_zip ar) fs), None)) /\
  (forall err, w_sevenzip w (ai_fullname ar) = inl err ->
     fst (loadFilesIn7ZArchive w ar) =
     Ok (ar, Some (wrapError
                     (String.append "Could not open "
                        (String.append (ai_fullname ar)
                           (String.append ".  " (Error err)))) err))) /\
  (forall fs, w_sevenzip w (ai_fullname ar) = inr fs ->
     fst (loadFilesIn7ZArchive w ar) =
     Ok (set_files ar (ai_files ar ++ map (arFile_7z ar) fs), None)) /\
  (forall file ts,
     w_Open w (ai_fullname ar) = inr file ->
     w_gzip w file = inr ts ->
     tar_end ts <> io_EOF ->
     fst (loadFilesInTgzArchive w ar) =
     Ok (set_files ar
           (ai_files ar ++
            map (fun e => arFile_tgz ar (te_head e)) (tar_entries ts)),
         Some (tar_end ts))).
Proof.
  repeat split.
  - intros err H. rewrite loadFilesInZipArchive_spec, H. reflexivity.
  - intros fs H. rewrite loadFilesInZipArchive_spec, H. reflexivity.
  - intros err H. rewrite loadFilesIn7ZArchive_spec, H. reflexivity.
  - intros fs H. rewrite loadFilesIn7ZArchive_spec, H. reflexivity.
  - intros file ts Ho Hg Hend.
    rewrite loadFilesInTgzArchive_spec, Ho, Hg.
    destruct (tar_end ts); simpl; congruence.
Qed.

Lemma cataloging_failure_modes_witness :
  let bad := mkArchiveInfo "/data" "bad.zip" "/data/bad.zip" 5 ARCHIVE_ZIP [] in
  let good := mkArchiveInfo "/data" "test.zip" "/data/test.zip" 5 ARCHIVE_ZIP [] in
  let not7z := mkArchiveInfo "/data" "test.zip" "/data/test.zip" 5 ARCHIVE_7Z [] in
  let sz := mkArchiveInfo "/data" "sz_test.7z" "/data/sz_test.7z" 6 ARCHIVE_7Z [] in
  let broken :=
    mkArchiveInfo "/data" "broken.tgz" "/data/broken.tgz" 5 ARCHIVE_TGZ [] in
  fst (loadFilesInZipArchive Fixtures.world bad) =
    Ok (bad,
        Some (wrapError "Could not open /data/bad.zip.  zip: not a valid zip file"
                (errors_New "zip: not a valid zip file"))) /\
  fst (loadFilesInZipArchive Fixtures.world good) =
    Ok (set_files good (map (arFile_zip good) Fixtures.test_zip), None) /\
  fst (loadFilesIn7ZArchive Fixtures.world not7z) =
    Ok (not7z,
        Some (wrapError
                "Could not open /data/test.zip.  sevenzip: not a valid 7-zip file"
                (errors_New "sevenzip: not a valid 7-zip file"))) /\
  fst (loadFilesIn7ZArchive Fixtures.world sz) =
    Ok (set_files sz (map (arFile_7z sz) Fixtures.sz_test), None) /\
  fst (loadFilesInTgzArchive Fixtures.world broken) =
    Ok (set_files broken
          [mkArchivedFile "/data/broken.tgz" ARCHIVE_TGZ "first.txt" 5 false
             420 1700000009],
        Some (errors_New "unexpected EOF")).
Proof.
  intros bad good not7z sz broken.
  split; [|split; [|split; [|split]]].
  - destruct (cataloging_failure_modes Fixtures.world bad) as (H & _).
    apply (H (errors_New "zip: not a valid zip file")). reflexivity.
  - destruct (cataloging_failure_modes Fixtures.world good) as (_ & H & _).
    apply (H Fixtures.test_zip). reflexivity.
  - destruct (cataloging_failure_modes Fixtures.world not7z) as (_ & _ & H & _).
    apply (H (errors_New "sevenzip: not a valid 7-zip file")). reflexivity.
  - destruct (cataloging_failure_modes Fixtures.world sz) as (_ & _ & _ & H & _).
    apply (H Fixtures.sz_test). reflexivity.
  - destruct (cataloging_failure_modes Fixtures.world broken)
      as (_ & _ & _ & _ & H).
    apply (H (mkOsFile (Fixtures.gz_magic ++ [Byte.x02]) None)
             Fixtures.broken_tgz).
    + reflexivity.
    + reflexivity.
    + simpl. discriminate.
Defined.

(** C10.  The gzipped-tar cataloger never panics, only appends to the
    catalog, and every entry it appends has [IsDir] false (and the
    GzippedTar tag): the flag is the literal [false], the header's own
    directory bit is not consulted. *)
Theorem loadFilesInTgzArchive_IsDir_false (w : World) (ar : ArchiveInfo) :
  exists ar' err new,
    fst (loadFilesInTgzArchive w ar) = Ok (ar', err) /\
    ai_files ar' = ai_files ar ++ new /\
    Forall (fun e => af_IsDir e = false /\ af_archivetype e = ARCHIVE_TGZ) new.
Proof.
  rewrite loadFilesInTgzArchive_spec.
  destruct (w_Open w (ai_fullname ar)) as [err|file].
  - exists ar, (Some (Errorf_Could_not_open (ai_fullname ar) err)), [].
    rewrite app_nil_r. auto.
  - destruct (w_gzip w file) as [err|ts].
    + exists ar, (Some (Errorf_Could_not_open (ai_fullname ar) err)), [].
      rewrite app_nil_r. auto.
    + eexists _, _, _. split; [reflexivity|]. split; [reflexivity|].
      apply Forall_forall. intros e He.
      apply in_map_iff in He. destruct He as (te & <- & _). split; reflexivity.
Qed.

(** A header that describes a directory is cataloged with [IsDir] false. *)
Example tgz_directory_header :
  map th_IsDir (map te_head (tar_entries Fixtures.tgz_test)) = [true; false] /\
  match fst (GetArchiveInfo Fixtures.world "/data/tgz_test.tgz") with
  | Ok (ar, None) =>
      map (fun e => (af_name e, af_IsDir e)) (ai_files ar) =
      [("sub/", false); ("sub/random_text.txt", false)]
  | _ => False
  end.
Proof. split; reflexivity. Qed.

(** ** The handle returned by [GetArchiveInfo] *)

Lemma bind_Ok {A B : Type} (m : IO A) (f : A -> IO B) (a : A) (t : list event) :
  m = (Ok a, t) -> bind m f = (fst (f a), t ++ snd (f a)).
Proof. intros ->. reflexivity. Qed.

(** Detection never panics and makes no codec call; it either fails and
    leaves the handle as it was, or sets one of the four detected types. *)
Lemma getArchiveType_cases (w : World) (ar : ArchiveInfo) :
  exists r tr,
    getArchiveType w ar = (Ok r, tr) /\ no_codec tr /\
    ((exists e, snd r = Some e /\ fst r = ar) \/
     (snd r = None /\
      exists t, fst r = set_ArchiveType ar t /\
                (t = ARCHIVE_NA \/ t = ARCHIVE_ZIP \/ t = ARCHIVE_7Z \/
                 t = ARCHIVE_TGZ))).
Proof.
  unfold getArchiveType, no_codec.
  destruct (ai_size ar <? 5).
  - eexists _, _. split; [reflexivity|]. split; [constructor|].
    right. split; [reflexivity|]. exists ARCHIVE_NA. auto.
  - unfold make_bytes, os_Open, file_Read, deferring, bind, emit, ret.
    simpl.
    destruct (w_Open w (ai_fullname ar)) as [e|[bs rerr]]; simpl.
    + eexists _, _. split; [reflexivity|]. split; [repeat constructor|].
      left. eexists. split; reflexivity.
    + destruct rerr as [e|]; simpl.
      * eexists _, _. split; [reflexivity|]. split; [repeat constructor|].
        left. eexists. split; reflexivity.
      * destruct bs as [|b bs]; simpl.
        -- eexists _, _. split; [reflexivity|]. split; [repeat constructor|].
           left. eexists. split; reflexivity.
        -- repeat match goal with
                  | |- context [if ?c then _ else _] => destruct c
                  end;
             simpl; eexists _, _; (split; [reflexivity|]);
             (split; [repeat constructor|]);
             right; (split; [reflexivity|]); eexists; split;
             try reflexivity; auto.
Qed.

Lemma bind_run {A B : Type} (m : IO A) (f : A -> IO B) (a : A) (b : B)
    (t t' : list event) :
  m = (Ok a, t) -> f a = (Ok b, t') -> bind m f = (Ok b, t ++ t').
Proof. intros -> H. unfold bind. simpl. rewrite H. reflexivity. Qed.

Lemma loadFilesInZipArchive_run (w : World) (ar : ArchiveInfo) :
  exists r t,
    loadFilesInZipArchive w ar = (Ok r, EvCall loadZip :: t) /\
    ai_ArchiveType (fst r) = ai_ArchiveType ar /\
    (snd r <> None -> fst r = ar) /\
    (ai_files ar = [] -> Forall (cataloged_from w) (ai_files (fst r))).
Proof.
  pose proof (loadFilesInZipArchive_spec w ar) as F.
  assert (S : snd (loadFilesInZipArchive w ar) =
              EvCall loadZip :: tl (snd (loadFilesInZipArchive w ar)))
    by reflexivity.
  destruct (loadFilesInZipArchive w ar) as [r t]. simpl in F, S. subst r.
  rewrite S.
  destruct (w_zip w (ai_fullname ar)) as [e|fs] eqn:Hz; eexists _, _;
    (split; [reflexivity|]); simpl; (split; [reflexivity|]);
    (split; [congruence|]); intros ->; [constructor|].
  simpl. apply Forall_forall. intros x Hx.
  apply in_map_iff in Hx. destruct Hx as (f & <- & Hf).
  left. split; [reflexivity|]. exists fs, f. simpl. auto.
Qed.

Lemma loadFilesIn7ZArchive_run (w : World) (ar : ArchiveInfo) :
  exists r t,
    loadFilesIn7ZArchive w ar = (Ok r, EvCall load7Z :: t) /\
    ai_ArchiveType (fst r) = ai_ArchiveType ar /\
    (snd r <> None -> fst r = ar) /\
    (ai_files ar = [] -> Forall (cataloged_from w) (ai_files (fst r))).
Proof.
  pose proof (loadFilesIn7ZArchive_spec w ar) as F.
  assert (S : snd (loadFilesIn7ZArchive w ar) =
              EvCall load7Z :: tl (snd (loadFilesIn7ZArchive w ar)))
    by reflexivity.
  destruct (loadFilesIn7ZArchive w ar) as [r t]. simpl in F, S. subst r.
  rewrite S.
  destruct (w_sevenzip w (ai_fullname ar)) as [e|fs] eqn:Hz; eexists _, _;
    (split; [reflexivity|]); simpl; (split; [reflexivity|]);
    (split; [congruence|]); intros ->; [constructor|].
  simpl. apply Forall_forall. intros x Hx.
  apply in_map_iff in Hx. destruct Hx as (f & <- & Hf).
  right. left. split; [reflexivity|]. exists fs, f. simpl. auto.
Qed.

Lemma loadFilesInTgzArchive_run (w : World) (ar : ArchiveInfo) :
  exists r t,
    loadFilesInTgzArchive w ar = (Ok r, EvCall loadTgz :: t) /\
    ai_ArchiveType (fst r) = ai_ArchiveType ar /\
    (ai_files ar = [] -> Forall (cataloged_from w) (ai_files (fst r))).
Proof.
  pose proof (loadFilesInTgzArchive_spec w ar) as F.
  assert (S : snd (loadFilesInTgzArchive w ar) =
              EvCall loadTgz :: tl (snd (loadFilesInTgzArchive w ar)))
    by reflexivity.
  destruct (loadFilesInTgzArchive w ar) as [r t]. simpl in F, S. subst r.
  rewrite S.
  destruct (w_Open w (ai_fullname ar)) as [e|file] eqn:Ho;
    [|destruct (w_gzip w file) as [e|ts] eqn:Hg]; eexists _, _;
    (split; [reflexivity|]); (split; [reflexivity|]); simpl;
    intros ->; [constructor|constructor|].
  simpl. apply Forall_forall. intros x Hx.
  apply in_map_iff in Hx. destruct Hx as (te & <- & Hte).
  right. right. split; [reflexivity|]. exists file, ts, te. simpl. auto.
Qed.

Lemma handle_inv_uncataloged (w : World) (ar : ArchiveInfo)
    (err : option error) (tr : list event) :
  ai_files ar = [] -> no_codec tr -> handle_inv w ar err tr.
Proof.
  unfold handle_inv. intros Hf Hc. repeat split; auto.
  rewrite Hf. constructor.
Qed.

Lemma handle_inv_cataloged (w : World) (ar : ArchiveInfo)
    (err : option error) (tr : list event) (m : method) :
  In (EvCall m) tr ->
  ai_ArchiveType ar <> ARCHIVE_NA ->
  ai_ArchiveType ar <> ARCHIVE_UNINIT ->
  (err <> None -> ai_ArchiveType ar <> ARCHIVE_TGZ -> ai_files ar = []) ->
  Forall (cataloged_from w) (ai_files ar) ->
  handle_inv w ar err tr.
Proof.
  intros Hin Hna Hun Herr Hprov. unfold handle_inv. repeat split.
  - intros Hno. exfalso. exact (Hno m Hin).
  - destruct H; contradiction.
  - destruct H; contradiction.
  - exact Herr.
  - exact Hprov.
Qed.

Lemma in_after_prefix (e : event) (t1 t2 t3 : list event) :
  In e (t1 ++ t2 ++ e :: t3).
Proof. apply in_or_app. right. apply in_or_app. right. left. reflexivity. Qed.

(** Every run of the second half of [GetArchiveInfo] on a fresh handle ends
    without panic in a state that satisfies [handle_inv]. *)
Lemma GetArchiveInfo_verify_inv (w : World) (ar0 : ArchiveInfo) :
  ai_files ar0 = [] ->
  ai_ArchiveType ar0 = ARCHIVE_UNINIT ->
  exists ar err tr,
    GetArchiveInfo_verify w ar0 = (Ok (ar, err), tr) /\
    handle_inv w ar err tr.
Proof.
  intros Hfiles Htype. unfold GetArchiveInfo_verify.
  set (ar1 := set_fullname ar0 (w_Join w (ai_path ar0) (ai_name ar0))).
  assert (Hf1 : ai_files ar1 = []) by exact Hfiles.
  assert (Ht1 : ai_ArchiveType ar1 = ARCHIVE_UNINIT) by exact Htype.
  clearbody ar1.
  assert (Hstat : os_Stat w (ai_fullname ar1) =
                  (Ok (w_Stat w (ai_fullname ar1)), [EvStat (ai_fullname ar1)]))
    by reflexivity.
  destruct (w_Stat w (ai_fullname ar1)) as [e|fsize].
  - (* os.Stat fails *)
    eexists _, _, _. split.
    + eapply bind_run; [exact Hstat|]. reflexivity.
    + apply handle_inv_uncataloged; [exact Hf1|]. repeat constructor.
  - destruct (getArchiveType_cases w (set_size ar1 fsize))
      as ([ar2 err2] & tr2 & Hrun & Hnc & [(e & He & Har)|(He & t & Har & Ht)]);
      simpl in He, Har; subst.
    + (* detection fails *)
      eexists _, _, _. split.
      * eapply bind_run; [exact Hstat|].
        eapply bind_run; [exact Hrun|]. reflexivity.
      * apply handle_inv_uncataloged; [exact Hf1|].
        simpl. rewrite app_nil_r. constructor; [reflexivity|exact Hnc].
    + destruct Ht as [-> | [-> | [-> | ->]]].
      * (* not an archive *)
        eexists _, _, _. split.
        -- eapply bind_run; [exact Hstat|].
           eapply bind_run; [exact Hrun|]. reflexivity.
        -- apply handle_inv_uncataloged; [exact Hf1|].
           simpl. rewrite app_nil_r. constructor; [reflexivity|exact Hnc].
      * (* Zip *)
        destruct (loadFilesInZipArchive_run w
                    (set_ArchiveType (set_size ar1 fsize) ARCHIVE_ZIP))
          as ([ar3 err3] & t3 & Hload & Hty & Hkeep & Hprov).
        simpl in Hty, Hkeep, Hprov.
        eexists _, _, _. split.
        -- eapply bind_run; [exact Hstat|].
           eapply bind_run; [exact Hrun|]. simpl. exact Hload.
        -- apply (handle_inv_cataloged _ _ _ _ loadZip);
             [apply in_after_prefix|rewrite Hty; discriminate
             |rewrite Hty; discriminate| |exact (Hprov Hf1)].
           intros Herr _. rewrite (Hkeep Herr). exact Hf1.
      * (* 7z *)
        destruct (loadFilesIn7ZArchive_run w
                    (set_ArchiveType (set_size ar1 fsize) ARCHIVE_7Z))
          as ([ar3 err3] & t3 & Hload & Hty & Hkeep & Hprov).
        simpl in Hty, Hkeep, Hprov.
        eexists _, _, _. split.
        -- eapply bind_run; [exact Hstat|].
           eapply bind_run; [exact Hrun|]. simpl. exact Hload.
        -- apply (handle_inv_cataloged _ _ _ _ load7Z);
             [apply in_after_prefix|rewrite Hty; discriminate
             |rewrite Hty; discriminate| |exact (Hprov Hf1)].
           intros Herr _. rewrite (Hkeep Herr). exact Hf1.
      * (* gzipped tar *)
        destruct (loadFilesInTgzArchive_run w
                    (set_ArchiveType (set_size ar1 fsize) ARCHIVE_TGZ))
          as ([ar3 err3] & t3 & Hload & Hty & Hprov). simpl in Hty, Hprov.
        eexists _, _, _. split.
        -- eapply bind_run; [exact Hstat|].
           eapply bind_run; [exact Hrun|]. simpl. exact Hload.
        -- apply (handle_inv_cataloged _ _ _ _ loadTgz);
             [apply in_after_prefix|rewrite Hty; discriminate
             |rewrite Hty; discriminate| |exact (Hprov Hf1)].
           intros _ Hne. exfalso. apply Hne. exact Hty.
Qed.

(** Every run of [GetArchiveInfo] ends without panic in a state that
    satisfies [handle_inv]. *)
Lemma GetArchiveInfo_inv (w : World) (path : string) :
  exists ar err tr,
    GetArchiveInfo w path = (Ok (ar, err), tr) /\ handle_inv w ar err tr.
Proof.
  unfold GetArchiveInfo.
  destruct (strings_Contains path (String (w_PathSeparator w) "")).
  - destruct (Z.of_nat (String.length (w_Dir w path)) =? 0).
    + eexists _, _, _. split; [reflexivity|].
      apply handle_inv_uncataloged; [reflexivity|]. repeat constructor.
    + apply GetArchiveInfo_verify_inv; reflexivity.
  - destruct (GetArchiveInfo_verify_inv w
                (set_name (set_path zero_ArchiveInfo (fst (w_Getwd w))) path))
      as (ar & err & tr & Hrun & Hinv); [reflexivity|reflexivity|].
    eexists _, _, _. split.
    + eapply bind_run; [reflexivity|exact Hrun].
    + destruct Hinv as (H1 & H2 & H3 & H4). repeat split.
      * intros Hno. apply H1. intros m Hm. apply (Hno m). right. exact Hm.
      * apply H2. assumption.
      * constructor; [reflexivity|]. apply H2. assumption.
      * exact H3.
      * exact H4.
Qed.

Lemma File_empty (ar : ArchiveInfo) (fname : string) :
  ai_files ar = [] -> File ar fname = None.
Proof. unfold File. intros ->. reflexivity. Qed.

(** C6 as the specification states it does not hold: cataloging the damaged
    gzipped tar of the fixtures fails, and the handle returned with the error
    has an entry. *)
Lemma GetArchiveInfo_failed_catalog_not_empty :
  ~ (forall (w : World) (path : string) (ar : ArchiveInfo) (err : error),
       fst (GetArchiveInfo w path) = Ok (ar, Some err) -> ai_files ar = []).
Proof.
  intros H.
  specialize (H Fixtures.world "/data/broken.tgz" _ _ eq_refl).
  discriminate H.
Qed.

(** C6, amended.  [GetArchiveInfo] never panics.  The entries of the handle
    it returns are empty unless a cataloger was called; they are empty
    whenever the call fails, unless the type is GzippedTar; and when the type
    is NotAnArchive or Uninitialized the entries are empty, no cataloger,
    extractor or codec was called, and lookup finds no entry to extract. *)
Theorem GetArchiveInfo_entries_invariant (w : World) (path : string) :
  exists ar err tr,
    GetArchiveInfo w path = (Ok (ar, err), tr) /\
    ((forall m, ~ In (EvCall m) tr) -> ai_files ar = []) /\
    (err <> None -> ai_ArchiveType ar <> ARCHIVE_TGZ -> ai_files ar = []) /\
    (ai_ArchiveType ar = ARCHIVE_NA \/ ai_ArchiveType ar = ARCHIVE_UNINIT ->
     ai_files ar = [] /\
     Forall (fun e => is_ev_codec e = false) tr /\
     forall fname, File ar fname = None).
Proof.
  pose proof (GetArchiveInfo_inv w path) as Hinv.
  destruct Hinv as (ar & err & tr & Hrun & H1 & H2 & H3 & _).
  exists ar, err, tr. repeat split; auto.
  - apply H2. assumption.
  - apply H2. assumption.
  - intros fname. apply File_empty. apply H2. assumption.
Qed.

Lemma GetArchiveInfo_entries_invariant_witness :
  exists ar tr,
    GetArchiveInfo Fixtures.world "/data/notes.txt" = (Ok (ar, None), tr) /\
    ai_ArchiveType ar = ARCHIVE_NA /\
    ai_files ar = [] /\
    Forall (fun e => is_ev_codec e = false) tr /\
    File ar "notes.txt" = None.
Proof.
  destruct (GetArchiveInfo_entries_invariant Fixtures.world "/data/notes.txt")
    as (ar & err & tr & Hrun & _ & _ & Hna).
  vm_compute in Hrun. inversion Hrun; subst ar err tr.
  destruct Hna as (Hf & Hc & Hl); [left; reflexivity|].
  eexists _, _. split; [reflexivity|].
  split; [reflexivity|]. split; [exact Hf|]. split; [exact Hc|apply Hl].
Defined.




(** ** Extraction *)

Lemma fst_bind {A B : Type} (m : IO A) (f : A -> IO B) :
  fst (bind m f) =
  match fst m with
  | Ok a => fst (f a)
  | Panic msg => Panic msg
  end.
Proof. unfold bind. destruct (fst m); reflexivity. Qed.

Lemma make_bytes_served (limit n : Z) :
  0 <= n <= limit ->
  make_bytes limit n = (Ok (repeat Byte.x00 (Z.to_nat n)), []).
Proof.
  intros [H0 H1]. unfold make_bytes.
  apply Z.ltb_ge in H0, H1. rewrite H0, H1. reflexivity.
Qed.

Lemma len_zeros (n : Z) : 0 <= n -> len (repeat Byte.x00 (Z.to_nat n)) = n.
Proof. intros H. unfold len. rewrite repeat_length. lia. Qed.

Lemma skipn_zeros (n m : nat) :
  skipn n (repeat Byte.x00 m) = repeat Byte.x00 (m - n).
Proof.
  revert m. induction n as [|n IH]; intros m.
  - rewrite Nat.sub_0_r. reflexivity.
  - destruct m as [|m]; simpl; [reflexivity|apply IH].
Qed.

(** One [Read] keeps the buffer's length. *)
Lemma Read_length (r : Reader) (p : list byte) :
  List.length (fst (Read r p)) = List.length p.
Proof.
  unfold Read. simpl. rewrite length_app, length_firstn, length_skipn. lia.
Qed.

(** One [Read] yields the whole payload when the decoder has all of it
    ready and the buffer has the payload's length. *)
Lemma Read_whole (r : Reader) (p : list byte) :
  List.length (rd_payload r) = List.length p ->
  (List.length (rd_payload r) <= rd_first r)%nat ->
  fst (Read r p) = rd_payload r.
Proof.
  intros Hlen Hfirst. unfold Read. simpl.
  replace (Nat.min (List.length p)
             (Nat.min (rd_first r) (List.length (rd_payload r))))
    with (List.length (rd_payload r)) by lia.
  rewrite firstn_all, Hlen, skipn_all. apply app_nil_r.
Qed.

Section Extractors.

Context (w : World) (af : ArchivedFile).

Lemma extractZip_loop_find (fs : list ZipFile) (buffer : list byte) :
  fst (extractZip_loop af fs buffer) =
  match first_named zf_Name (af_name af) fs with
  | None => Ok (Some buffer, None)
  | Some f =>
      match zf_Open f with
      | inl err => Ok (None, Some err)
      | inr r => Ok (Some (fst (Read r buffer)), None)
      end
  end.
Proof.
  unfold first_named. induction fs as [|f fs IH]; simpl; [reflexivity|].
  destruct (String.eqb (zf_Name f) (af_name af)); simpl; [|exact IH].
  unfold entry_Open, entry_Read, deferring, bind, emit, ret. simpl.
  destruct (zf_Open f); reflexivity.
Qed.

Lemma extract7Z_loop_find (fs : list SzFile) (buffer : list byte) :
  fst (extract7Z_loop af fs buffer) =
  match first_named sz_Name (af_name af) fs with
  | None => Ok (Some buffer, None)
  | Some f =>
      match sz_Open f with
      | inl err => Ok (None, Some err)
      | inr r => Ok (Some (fst (Read r buffer)), None)
      end
  end.
Proof.
  unfold first_named. induction fs as [|f fs IH]; simpl; [reflexivity|].
  destruct (String.eqb (sz_Name f) (af_name af)); simpl; [|exact IH].
  unfold entry_Open, entry_Read, deferring, bind, emit, ret. simpl.
  destruct (sz_Open f); reflexivity.
Qed.

Lemma extractTgz_locate_find (es : list TarEntry) (tend : error) :
  fst (extractTgz_locate af es tend) =
  match first_named (fun e => th_Name (te_head e)) (af_name af) es with
  | None => Ok (None, Some tend)
  | Some e => Ok (Some (te_data e), None)
  end.
Proof.
  unfold first_named. induction es as [|e es IH]; simpl; [reflexivity|].
  destruct (String.eqb (th_Name (te_head e)) (af_name af)); simpl;
    [reflexivity|exact IH].
Qed.

Let zeros : list byte := repeat Byte.x00 (Z.to_nat (af_size af)).

Lemma extractZipFileBytes_spec :
  0 <= af_size af <= w_maxAlloc w ->
  fst (extractZipFileBytes w af) =
  match w_zip w (af_archivefile af) with
  | inl err => Ok (None, Some (Errorf_Could_not_open (af_archivefile af) err))
  | inr fs =>
      match first_named zf_Name (af_name af) fs with
      | None => Ok (Some zeros, None)
      | Some f =>
          match zf_Open f with
          | inl err => Ok (None, Some err)
          | inr r => Ok (Some (fst (Read r zeros)), None)
          end
      end
  end.
Proof.
  intros Hsize. unfold extractZipFileBytes.
  rewrite (make_bytes_served _ _ Hsize).
  unfold zip_OpenReader, deferring, bind, emit, ret. simpl.
  destruct (w_zip w (af_archivefile af)); simpl; [reflexivity|].
  apply extractZip_loop_find.
Qed.

Lemma extract7ZFileBytes_spec :
  0 <= af_size af <= w_maxAlloc w ->
  fst (extract7ZFileBytes w af) =
  match w_sevenzip w (af_archivefile af) with
  | inl err => Ok (None, Some (Errorf_Could_not_open (af_archivefile af) err))
  | inr fs =>
      match first_named sz_Name (af_name af) fs with
      | None => Ok (Some zeros, None)
      | Some f =>
          match sz_Open f with
          | inl err => Ok (None, Some err)
          | inr r => Ok (Some (fst (Read r zeros)), None)
          end
      end
  end.
Proof.
  intros Hsize. unfold extract7ZFileBytes.
  unfold sevenzip_OpenReader, bind, emit, ret. simpl.
  destruct (w_sevenzip w (af_archivefile af)); simpl; [reflexivity|].
  rewrite (make_bytes_served _ _ Hsize). simpl.
  apply extract7Z_loop_find.
Qed.

Lemma extractTgzFileBytes_spec :
  0 <= af_size af <= w_maxAlloc w ->
  fst (extractTgzFileBytes w af) =
  match w_Open w (af_archivefile af) with
  | inl err => Ok (None, Some (Errorf_Could_not_open (af_archivefile af) err))
  | inr file =>
      match w_gzip w file with
      | inl err =>
          Ok (None, Some (Errorf_Could_not_open (af_archivefile af) err))
      | inr ts =>
          match first_named (fun e => th_Name (te_head e)) (af_name af)
                  (tar_entries ts) with
          | None => Ok (Some zeros, Some (tar_end ts))
          | Some e => Ok (Some (fst (Read (te_data e) zeros)), None)
          end
      end
  end.
Proof.
  intros Hsize. unfold extractTgzFileBytes.
  rewrite (make_bytes_served _ _ Hsize).
  unfold os_Open, gzip_NewReader, deferring. rewrite ?fst_bind. simpl.
  destruct (w_Open w (af_archivefile af)) as [err|file]; simpl;
    [reflexivity|].
  rewrite ?fst_bind. simpl.
  destruct (w_gzip w file) as [err|ts]; simpl; [reflexivity|].
  rewrite ?fst_bind. rewrite extractTgz_locate_find.
  destruct (first_named _ _ _); reflexivity.
Qed.

(** [GetBytes] against the specification side: whenever the codec reports a
    stream for the entry's name, [GetBytes] returns the buffer after one
    [Read] from it; when the codec fails to open that entry, its error. *)
Lemma GetBytes_codec_open (o : error + Reader) :
  0 <= af_size af <= w_maxAlloc w ->
  codec_open w af = Some o ->
  fst (GetBytes w af) =
  match o with
  | inl err => Ok (None, Some err)
  | inr r => Ok (Some (fst (Read r zeros)), None)
  end.
Proof.
  intros Hsize. unfold codec_open, GetBytes.
  destruct (Z.eqb_spec (af_archivetype af) ARCHIVE_ZIP) as [Ez|Ez].
  - rewrite Ez.
    change (ARCHIVE_ZIP =? ARCHIVE_7Z) with false.
    change (ARCHIVE_ZIP =? ARCHIVE_TGZ) with false.
    change (ARCHIVE_ZIP =? ARCHIVE_ZIP) with true. cbv iota.
    rewrite (extractZipFileBytes_spec Hsize).
    destruct (w_zip w (af_archivefile af)) as [|fs]; [discriminate|].
    destruct (first_named zf_Name (af_name af) fs); simpl; [|discriminate].
    intros [= <-]. reflexivity.
  - destruct (Z.eqb_spec (af_archivetype af) ARCHIVE_7Z) as [E7|E7].
    + rewrite (extract7ZFileBytes_spec Hsize).
      destruct (w_sevenzip w (af_archivefile af)) as [|fs]; [discriminate|].
      destruct (first_named sz_Name (af_name af) fs); simpl; [|discriminate].
      intros [= <-]. reflexivity.
    + destruct (Z.eqb_spec (af_archivetype af) ARCHIVE_TGZ) as [Et|Et];
        [|discriminate].
      rewrite (extractTgzFileBytes_spec Hsize).
      destruct (w_Open w (af_archivefile af)) as [|file]; [discriminate|].
      destruct (w_gzip w file) as [|ts]; [discriminate|].
      destruct (first_named _ (af_name af) (tar_entries ts)); simpl;
        [|discriminate].
      intros [= <-]. reflexivity.
Qed.

End Extractors.

Section FirstNamed.

Context {A : Type} (name_of : A -> string) (n : string).

Lemma first_named_none (xs : list A) :
  (forall x, In x xs -> name_of x <> n) -> first_named name_of n xs = None.
Proof.
  unfold first_named. induction xs as [|x xs IH]; intros H; simpl;
    [reflexivity|].
  destruct (String.eqb_spec (name_of x) n) as [E|E].
  - exfalso. apply (H x); [left; reflexivity|exact E].
  - apply IH. intros y Hy. apply H. right. exact Hy.
Qed.

Lemma first_named_some (xs : list A) (x : A) :
  In x xs -> name_of x = n -> exists y, first_named name_of n xs = Some y.
Proof.
  unfold first_named. intros Hin Hn.
  destruct (find (fun x => String.eqb (name_of x) n) xs) as [y|] eqn:F.
  - exists y. reflexivity.
  - exfalso. pose proof (find_none _ _ F x Hin) as Hx. simpl in Hx.
    apply String.eqb_neq in Hx. contradiction.
Qed.

End FirstNamed.

Lemma extractZip_loop_no_match (af : ArchivedFile) (fs : list ZipFile)
    (buffer : list byte) :
  (forall f, In f fs -> zf_Name f <> af_name af) ->
  extractZip_loop af fs buffer = (Ok (Some buffer, None), []).
Proof.
  induction fs as [|f fs IH]; intros H; simpl; [reflexivity|].
  destruct (String.eqb_spec (zf_Name f) (af_name af)) as [E|E]; simpl.
  - exfalso. apply (H f); [left; reflexivity|exact E].
  - apply IH. intros g Hg. apply H. right. exact Hg.
Qed.

Lemma extract7Z_loop_no_match (af : ArchivedFile) (fs : list SzFile)
    (buffer : list byte) :
  (forall f, In f fs -> sz_Name f <> af_name af) ->
  extract7Z_loop af fs buffer = (Ok (Some buffer, None), []).
Proof.
  induction fs as [|f fs IH]; intros H; simpl; [reflexivity|].
  destruct (String.eqb_spec (sz_Name f) (af_name af)) as [E|E]; simpl.
  - exfalso. apply (H f); [left; reflexivity|exact E].
  - apply IH. intros g Hg. apply H. right. exact Hg.
Qed.

(** C4 as the specification states it does not hold: for a name that is in
    neither container, the Zip extractor returns three bytes, not none, and
    the gzipped-tar extractor returns them with the error [io.EOF]. *)
Lemma GetBytes_no_match_not_empty :
  let in_zip :=
    mkArchivedFile "/data/test.zip" ARCHIVE_ZIP "figgle.foo" 3 false 420 0 in
  let in_tgz :=
    mkArchivedFile "/data/tgz_test.tgz" ARCHIVE_TGZ "figgle.foo" 3 false 420 0 in
  (forall f, In f Fixtures.test_zip -> zf_Name f <> af_name in_zip) /\
  (forall e, In e (tar_entries Fixtures.tgz_test) ->
             th_Name (te_head e) <> af_name in_tgz) /\
  fst (GetBytes Fixtures.world in_zip) =
    Ok (Some [Byte.x00; Byte.x00; Byte.x00], None) /\
  fst (GetBytes Fixtures.world in_tgz) =
    Ok (Some [Byte.x00; Byte.x00; Byte.x00], Some io_EOF) /\
  fst (GetBytes Fixtures.world in_zip) <> Ok (Some [], None) /\
  fst (GetBytes Fixtures.world in_tgz) <> Ok (Some [], None).
Proof.
  repeat split; try discriminate.
  - intros f [<-|[<-|[]]]; discriminate.
  - intros e [<-|[<-|[]]]; discriminate.
Qed.

Lemma extractTgz_locate_no_match (af : ArchivedFile) (es : list TarEntry)
    (tend : error) :
  (forall x, In x es -> th_Name (te_head x) <> af_name af) ->
  extractTgz_locate af es tend =
  (Ok (None, Some tend),
   repeat (EvTarNext (af_archivefile af)) (S (List.length es))).
Proof.
  induction es as [|x es IH]; intros Hno; [reflexivity|].
  simpl. unfold bind, emit. simpl.
  destruct (String.eqb_spec (th_Name (te_head x)) (af_name af)) as [E|E];
    simpl.
  - exfalso. apply (Hno x); [left; reflexivity|exact E].
  - rewrite IH; [reflexivity|].
    intros y Hy. apply Hno. right. exact Hy.
Qed.

(** C4, amended.  For an entry whose recorded size is non-negative and
    within what [make] can allocate, and whose name matches no entry of the
    container it points to, extraction scans the whole container, opens no
    entry, and returns the buffer it allocated: [af_size] zero bytes.  For
    Zip and SevenZip the error is nil.  The gzipped-tar extractor calls
    [Next] for every header and once more, then calls [Read] on the reader,
    which is on no entry and delivers nothing. *)
Theorem GetBytes_no_match (w : World) (af : ArchivedFile) :
  0 <= af_size af <= w_maxAlloc w ->
  (forall fs,
     af_archivetype af = ARCHIVE_ZIP ->
     w_zip w (af_archivefile af) = inr fs ->
     (forall f, In f fs -> zf_Name f <> af_name af) ->
     GetBytes w af =
       (Ok (Some (repeat Byte.x00 (Z.to_nat (af_size af))), None),
        [EvCall extractZip; EvZipOpenReader (af_archivefile af);
         EvZipClose (af_archivefile af)])) /\
  (forall fs,
     af_archivetype af = ARCHIVE_7Z ->
     w_sevenzip w (af_archivefile af) = inr fs ->
     (forall f, In f fs -> sz_Name f <> af_name af) ->
     GetBytes w af =
       (Ok (Some (repeat Byte.x00 (Z.to_nat (af_size af))), None),
        [EvCall extract7Z; EvSevenzipOpenReader (af_archivefile af)])) /\
  (forall file ts,
     af_archivetype af = ARCHIVE_TGZ ->
     w_Open w (af_archivefile af) = inr file ->
     w_gzip w file = inr ts ->
     (forall e, In e (tar_entries ts) -> th_Name (te_head e) <> af_name af) ->
     exists err,
       GetBytes w af =
       (Ok (Some (repeat Byte.x00 (Z.to_nat (af_size af))), err),
        [EvCall extractTgz; EvOpen (af_archivefile af);
         EvGzipNewReader (af_archivefile af)] ++
        repeat (EvTarNext (af_archivefile af))
          (S (List.length (tar_entries ts))) ++
        [EvTarRead (af_archivefile af) (af_size af);
         EvGzipClose (af_archivefile af);
         EvFileClose (af_archivefile af)])) /\
  len (repeat Byte.x00 (Z.to_nat (af_size af))) = af_size af.
Proof.
  intros Hsize. repeat split.
  - intros fs Ht Hopen Hno. unfold GetBytes. rewrite Ht. simpl.
    unfold extractZipFileBytes. rewrite (make_bytes_served _ _ Hsize).
    unfold zip_OpenReader, deferring, bind, emit, ret. simpl.
    rewrite Hopen. simpl.
    rewrite (extractZip_loop_no_match _ _ _ Hno). reflexivity.
  - intros fs Ht Hopen Hno. unfold GetBytes. rewrite Ht. simpl.
    unfold extract7ZFileBytes.
    unfold sevenzip_OpenReader, bind, emit, ret. simpl.
    rewrite Hopen. simpl. rewrite (make_bytes_served _ _ Hsize). simpl.
    rewrite (extract7Z_loop_no_match _ _ _ Hno). reflexivity.
  - intros file ts Ht Hopen Hgz Hno. exists (Some (tar_end ts)).
    rewrite (GetBytes_tgz w af Ht).
    unfold extractTgzFileBytes.
    rewrite (make_bytes_served _ _ Hsize).
    unfold os_Open, gzip_NewReader, tar_Read, deferring.
    unfold bind at 1 2 3. simpl. rewrite Hopen. simpl.
    unfold bind at 1. simpl. rewrite Hgz. simpl.
    rewrite (extractTgz_locate_no_match af _ _ Hno).
    assert (L : @len byte (repeat Byte.x00 (Z.to_nat (af_size af))) =
                af_size af) by (apply len_zeros; apply Hsize).
    unfold bind, emit, ret. simpl. rewrite L.
    rewrite <- ?app_assoc. reflexivity.
  - apply len_zeros. apply Hsize.
Qed.

Ltac size_in_range := split; vm_compute; discriminate.

Lemma GetBytes_no_match_witness :
  GetBytes Fixtures.world
    (mkArchivedFile "/data/test.zip" ARCHIVE_ZIP "figgle.foo" 3 false 420 0) =
    (Ok (Some [Byte.x00; Byte.x00; Byte.x00], None),
     [EvCall extractZip; EvZipOpenReader "/data/test.zip";
      EvZipClose "/data/test.zip"]) /\
  GetBytes Fixtures.world
    (mkArchivedFile "/data/sz_test.7z" ARCHIVE_7Z "figgle.foo" 3 false 420 0) =
    (Ok (Some [Byte.x00; Byte.x00; Byte.x00], None),
     [EvCall extract7Z; EvSevenzipOpenReader "/data/sz_test.7z"]) /\
  exists err,
    GetBytes Fixtures.world
      (mkArchivedFile "/data/tgz_test.tgz" ARCHIVE_TGZ "figgle.foo" 3
         false 420 0) =
    (Ok (Some [Byte.x00; Byte.x00; Byte.x00], err),
     [EvCall extractTgz; EvOpen "/data/tgz_test.tgz";
      EvGzipNewReader "/data/tgz_test.tgz";
      EvTarNext "/data/tgz_test.tgz"; EvTarNext "/data/tgz_test.tgz";
      EvTarNext "/data/tgz_test.tgz";
      EvTarRead "/data/tgz_test.tgz" 3;
      EvGzipClose "/data/tgz_test.tgz"; EvFileClose "/data/tgz_test.tgz"]).
Proof.
  split; [|split].
  - destruct (GetBytes_no_match Fixtures.world
                (mkArchivedFile "/data/test.zip" ARCHIVE_ZIP "figgle.foo" 3
                   false 420 0)) as (H & _); [size_in_range|].
    apply (H Fixtures.test_zip); [reflexivity|reflexivity|].
    intros f [<-|[<-|[]]]; discriminate.
  - destruct (GetBytes_no_match Fixtures.world
                (mkArchivedFile "/data/sz_test.7z" ARCHIVE_7Z "figgle.foo" 3
                   false 420 0)) as (_ & H & _); [size_in_range|].
    apply (H Fixtures.sz_test); [reflexivity|reflexivity|].
    intros f [<-|[<-|[<-|[]]]]; discriminate.
  - destruct (GetBytes_no_match Fixtures.world
                (mkArchivedFile "/data/tgz_test.tgz" ARCHIVE_TGZ "figgle.foo" 3
                   false 420 0)) as (_ & _ & H & _); [size_in_range|].
    apply (H (mkOsFile (Fixtures.gz_magic ++ [Byte.x01]) None)
             Fixtures.tgz_test); [reflexivity|reflexivity|reflexivity|].
    intros e [<-|[<-|[]]]; discriminate.
Defined.

(** In the gzipped-tar extractor the error of the [Next] that ended the scan
    comes back with the buffer: [io.EOF] after a clean end of archive. *)
Lemma extractTgzFileBytes_no_match_error (w : World) (af : ArchivedFile)
    (file : OsFile) (ts : TarStream) :
  0 <= af_size af <= w_maxAlloc w ->
  w_Open w (af_archivefile af) = inr file ->
  w_gzip w file = inr ts ->
  (forall e, In e (tar_entries ts) -> th_Name (te_head e) <> af_name af) ->
  fst (extractTgzFileBytes w af) =
  Ok (Some (repeat Byte.x00 (Z.to_nat (af_size af))), Some (tar_end ts)).
Proof.
  intros Hsize Hopen Hgz Hno.
  rewrite (extractTgzFileBytes_spec w af Hsize), Hopen, Hgz.
  rewrite (first_named_none _ _ _ Hno). reflexivity.
Qed.

(** A negative recorded size makes the Zip extractor panic in [make]. *)
Example extractZipFileBytes_negative_size :
  fst (GetBytes Fixtures.world
         (mkArchivedFile "/data/test.zip" ARCHIVE_ZIP "dirhelp.txt" (-1)
            false 420 0)) =
  Panic "makeslice: len out of range".
Proof. reflexivity. Qed.

(** C1 as the specification states it does not hold: the entry "large.txt"
    of the fixture "/data/stream.zip" is cataloged with size 9, its decoder
    delivers 4 bytes per [Read], and [GetBytes] returns those 4 bytes
    followed by 5 zero bytes, not the payload. *)
Lemma GetBytes_short_read_differs :
  let e := mkArchivedFile "/data/stream.zip" ARCHIVE_ZIP "large.txt" 9 false
             420 1700000003 in
  (exists ar tr,
     GetArchiveInfo Fixtures.world "/data/stream.zip" = (Ok (ar, None), tr) /\
     In e (ai_files ar)) /\
  codec_open Fixtures.world e = Some (inr (Fixtures.chunked 4 "vulputate")) /\
  fst (GetBytes Fixtures.world e) =
    Ok (Some (Fixtures.bytes_of "vulp" ++ repeat Byte.x00 5), None) /\
  fst (GetBytes Fixtures.world e) <>
    Ok (Some (rd_payload (Fixtures.chunked 4 "vulputate")), None).
Proof.
  repeat split.
  - eexists _, _. split; [reflexivity|]. right. left. reflexivity.
  - discriminate.
Qed.

(** C1, amended.  For every entry in the handle returned by
    [GetArchiveInfo] whose recorded size is non-negative and within what
    [make] can allocate, the codec reports an entry of that name in the
    container.  If opening the first such entry fails, [GetBytes]
    returns that error.  Otherwise [GetBytes] returns, with a nil error, a
    byte sequence whose length is the entry's recorded size: the bytes the
    single [Read] delivers, followed by zero bytes.  It is the payload
    itself when the payload has the recorded size and the decoder delivers
    all of it in one [Read]. *)
Theorem GetBytes_of_cataloged_entry (w : World) (path : string)
    (ar : ArchiveInfo) (err : option error) (tr : list event)
    (e : ArchivedFile) :
  GetArchiveInfo w path = (Ok (ar, err), tr) ->
  In e (ai_files ar) ->
  0 <= af_size e <= w_maxAlloc w ->
  exists o,
    codec_open w e = Some o /\
    match o with
    | inl oerr => fst (GetBytes w e) = Ok (None, Some oerr)
    | inr r =>
        exists buf,
          fst (GetBytes w e) = Ok (Some buf, None) /\
          len buf = af_size e /\
          (let n := Nat.min (Z.to_nat (af_size e))
                      (Nat.min (rd_first r) (List.length (rd_payload r))) in
           buf = firstn n (rd_payload r) ++
                 repeat Byte.x00 (Z.to_nat (af_size e) - n)) /\
          (len (rd_payload r) = af_size e ->
           (List.length (rd_payload r) <= rd_first r)%nat ->
           buf = rd_payload r)
    end.
Proof.
  intros Hrun Hin Hsize.
  destruct (GetArchiveInfo_inv w path) as (ar' & err' & tr' & Hrun' & Hinv).
  rewrite Hrun in Hrun'. injection Hrun' as <- <- <-.
  destruct Hinv as (_ & _ & _ & Hprov).
  rewrite Forall_forall in Hprov. specialize (Hprov e Hin).
  assert (Hopen : exists o, codec_open w e = Some o).
  { unfold codec_open.
    destruct Hprov as [(Ht & fs & f & Hc & Hf & Hn)
                      |[(Ht & fs & f & Hc & Hf & Hn)
                       |(Ht & file & ts & te & Ho & Hg & Hf & Hn)]];
      rewrite Ht; simpl.
    - rewrite Hc. destruct (first_named_some zf_Name _ fs f Hf Hn) as (y & ->).
      eexists. reflexivity.
    - rewrite Hc. destruct (first_named_some sz_Name _ fs f Hf Hn) as (y & ->).
      eexists. reflexivity.
    - rewrite Ho, Hg.
      destruct (first_named_some (fun e => th_Name (te_head e)) _ _ te Hf Hn)
        as (y & ->).
      eexists. reflexivity. }
  destruct Hopen as (o & Ho). exists o. split; [exact Ho|].
  rewrite (GetBytes_codec_open w e o Hsize Ho).
  destruct o as [oerr|r]; [reflexivity|].
  eexists. split; [reflexivity|]. split; [|split].
  - unfold len. rewrite Read_length, repeat_length. lia.
  - unfold Read. simpl. rewrite repeat_length, skipn_zeros. reflexivity.
  - intros Hlen Hfirst. apply Read_whole; [|exact Hfirst].
    rewrite repeat_length. unfold len in Hlen. lia.
Qed.

Lemma GetBytes_of_cataloged_entry_witness :
  fst (GetBytes Fixtures.world
         (mkArchivedFile "/data/test.zip" ARCHIVE_ZIP "dirhelp.txt" 14 false
            420 1700000001)) =
  Ok (Some (Fixtures.bytes_of "subdirectories"), None).
Proof.
  destruct (GetBytes_of_cataloged_entry Fixtures.world "/data/test.zip"
              (mkArchiveInfo "/data" "test.zip" "/data/test.zip" 5 ARCHIVE_ZIP
                 (map (arFile_zip
                         (mkArchiveInfo "/data" "test.zip" "/data/test.zip" 5
                            ARCHIVE_ZIP []))
                    Fixtures.test_zip))
              None
              [EvStat "/data/test.zip"; EvOpen "/data/test.zip";
               EvFileRead "/data/test.zip" 5; EvFileClose "/data/test.zip";
               EvCall loadZip; EvZipOpenReader "/data/test.zip";
               EvZipClose "/data/test.zip"]
              (mkArchivedFile "/data/test.zip" ARCHIVE_ZIP "dirhelp.txt" 14
                 false 420 1700000001))
    as (o & Ho & H).
  - reflexivity.
  - right. left. reflexivity.
  - size_in_range.
  - vm_compute in Ho. injection Ho as <-.
    destruct H as (buf & Hrun & _ & _ & Hwhole).
    rewrite Hrun. rewrite Hwhole; [reflexivity|reflexivity|simpl; lia].
Defined.

(** ** Further properties of cataloging *)

Lemma no_codec_no_content (tr : list event) :
  no_codec tr -> Forall (fun e => is_ev_content e = false) tr.
Proof.
  unfold no_codec. apply Forall_impl.
  intros e H. destruct e; simpl in *; try reflexivity; discriminate.
Qed.

Lemma loadFilesInZipArchive_full (w : World) (ar : ArchiveInfo) :
  loadFilesInZipArchive w ar =
  match w_zip w (ai_fullname ar) with
  | inl err =>
      (Ok (ar, Some (Errorf_Could_not_open (ai_fullname ar) err)),
       [EvCall loadZip; EvZipOpenReader (ai_fullname ar)])
  | inr fs =>
      (Ok (set_files ar (ai_files ar ++ map (arFile_zip ar) fs), None),
       [EvCall loadZip; EvZipOpenReader (ai_fullname ar);
        EvZipClose (ai_fullname ar)])
  end.
Proof.
  unfold loadFilesInZipArchive, zip_OpenReader, bind, emit, ret, deferring.
  simpl. destruct (w_zip w (ai_fullname ar)); simpl; [reflexivity|].
  rewrite append_each_spec. reflexivity.
Qed.

Lemma loadFilesIn7ZArchive_full (w : World) (ar : ArchiveInfo) :
  loadFilesIn7ZArchive w ar =
  match w_sevenzip w (ai_fullname ar) with
  | inl err =>
      (Ok (ar, Some (Errorf_Could_not_open (ai_fullname ar) err)),
       [EvCall load7Z; EvSevenzipOpenReader (ai_fullname ar)])
  | inr fs =>
      (Ok (set_files ar (ai_files ar ++ map (arFile_7z ar) fs), None),
       [EvCall load7Z; EvSevenzipOpenReader (ai_fullname ar);
        EvSevenzipClose (ai_fullname ar)])
  end.
Proof.
  unfold loadFilesIn7ZArchive, sevenzip_OpenReader, bind, emit, ret, deferring.
  simpl. destruct (w_sevenzip w (ai_fullname ar)); simpl; [reflexivity|].
  rewrite append_each_spec. reflexivity.
Qed.

(** The calls of the tar loop: one [Next] per header and one that ends it. *)
Lemma loadTgz_loop_trace (es : list TarEntry) (tend : error) (ar : ArchiveInfo) :
  snd (loadTgz_loop es tend ar) =
  repeat (EvTarNext (ai_fullname ar)) (S (List.length es)).
Proof.
  revert ar. induction es as [|e es IH]; intros ar; [reflexivity|].
  simpl loadTgz_loop. unfold bind, emit. simpl.
  rewrite IH. reflexivity.
Qed.

Lemma loadFilesInTgzArchive_full (w : World) (ar : ArchiveInfo) :
  loadFilesInTgzArchive w ar =
  match w_Open w (ai_fullname ar) with
  | inl err =>
      (Ok (ar, Some (Errorf_Could_not_open (ai_fullname ar) err)),
       [EvCall loadTgz; EvOpen (ai_fullname ar)])
  | inr file =>
      match w_gzip w file with
      | inl err =>
          (Ok (ar, Some (Errorf_Could_not_open (ai_fullname ar) err)),
           [EvCall loadTgz; EvOpen (ai_fullname ar);
            EvGzipNewReader (ai_fullname ar); EvFileClose (ai_fullname ar)])
      | inr ts =>
          (Ok (set_files ar
                 (ai_files ar ++
                  map (fun e => arFile_tgz ar (te_head e)) (tar_entries ts)),
               if error_eqb_EOF (Some (tar_end ts)) then None
               else Some (tar_end ts)),
           [EvCall loadTgz; EvOpen (ai_fullname ar);
            EvGzipNewReader (ai_fullname ar)] ++
           repeat (EvTarNext (ai_fullname ar))
             (S (List.length (tar_entries ts))) ++
           [EvGzipClose (ai_fullname ar); EvFileClose (ai_fullname ar)])
      end
  end.
Proof.
  pose proof (loadFilesInTgzArchive_spec w ar) as F.
  assert (S : snd (loadFilesInTgzArchive w ar) =
    match w_Open w (ai_fullname ar) with
    | inl err => [EvCall loadTgz; EvOpen (ai_fullname ar)]
    | inr file =>
        match w_gzip w file with
        | inl err =>
            [EvCall loadTgz; EvOpen (ai_fullname ar);
             EvGzipNewReader (ai_fullname ar); EvFileClose (ai_fullname ar)]
        | inr ts =>
            [EvCall loadTgz; EvOpen (ai_fullname ar);
             EvGzipNewReader (ai_fullname ar)] ++
            repeat (EvTarNext (ai_fullname ar))
              (S (List.length (tar_entries ts))) ++
            [EvGzipClose (ai_fullname ar); EvFileClose (ai_fullname ar)]
        end
    end).
  { unfold loadFilesInTgzArchive, os_Open, gzip_NewReader, deferring.
    unfold bind at 1 2. simpl.
    destruct (w_Open w (ai_fullname ar)) as [err|file]; simpl; [reflexivity|].
    unfold bind at 1. simpl.
    destruct (w_gzip w file) as [err|ts]; simpl; [reflexivity|].
    unfold bind at 1.
    rewrite loadTgz_loop_spec. simpl fst. cbv iota.
    rewrite (loadTgz_loop_trace (tar_entries ts) (tar_end ts) ar).
    destruct (error_eqb_EOF _); simpl; rewrite ?app_nil_r;
      rewrite <- ?app_assoc; reflexivity. }
  destruct (loadFilesInTgzArchive w ar) as [r t]. simpl in F, S. subst r t.
  destruct (w_Open w (ai_fullname ar)) as [err|file]; [reflexivity|].
  destruct (w_gzip w file); reflexivity.
Qed.

Lemma known_type_cases :
  known_type ARCHIVE_UNINIT /\ known_type ARCHIVE_NA /\
  known_type ARCHIVE_ZIP /\ known_type ARCHIVE_TGZ /\ known_type ARCHIVE_7Z.
Proof. unfold known_type. repeat split; auto 6. Qed.

Lemma Forall_content_free_cons (e : event) (tr : list event) :
  is_ev_content e = false ->
  Forall (fun e => is_ev_content e = false) tr ->
  Forall (fun e => is_ev_content e = false) (e :: tr).
Proof. intros He Htr. constructor; assumption. Qed.

Lemma Forall_content_free_repeat (p : string) (n : nat) :
  Forall (fun e => is_ev_content e = false) (repeat (EvTarNext p) n).
Proof. induction n; simpl; constructor; auto. Qed.

Ltac content_free Hnc :=
  repeat first
    [ exact Hnc
    | apply Forall_nil
    | apply Forall_content_free_repeat
    | apply Forall_content_free_cons; [reflexivity|]
    | apply Forall_app; split ].

Ltac entries_of_listing :=
  apply Forall_forall;
  let x := fresh "x" in
  let Hx := fresh "Hx" in
  let f := fresh "f" in
  intros x Hx; apply in_map_iff in Hx; destruct Hx as (f & <- & _);
  split; reflexivity.

Ltac catalog_goal Es Hnc Hf :=
  simpl; rewrite ?Hf; simpl;
  match goal with
  | |- _ = _ => reflexivity
  | |- _ = _ => assumption
  | |- known_type _ => unfold known_type; auto 6
  | |- Forall (fun e => is_ev_content e = false) _ => content_free Hnc
  | |- Forall _ [] => apply Forall_nil
  | |- Forall _ (map _ _) => entries_of_listing
  | |- forall _, _ = _ -> _ =>
      let x := fresh "x" in
      let H := fresh "H" in
      intros x H; rewrite Es in H;
      first [ discriminate H
            | injection H as <-; repeat split; (reflexivity || assumption) ]
  end.

Ltac catalog_parts Es Hnc Hf :=
  unfold catalog_inv; simpl;
  repeat (split; [solve [catalog_goal Es Hnc Hf]|]).

Ltac verify_runs Hstat Hrun :=
  eapply bind_run; [exact Hstat|];
  eapply bind_run; [exact Hrun|]; simpl.

(** A run of the second half of [GetArchiveInfo] on a fresh handle. *)
Lemma GetArchiveInfo_verify_catalog (w : World) (ar0 : ArchiveInfo) :
  ai_files ar0 = [] ->
  ai_ArchiveType ar0 = ARCHIVE_UNINIT ->
  ai_size ar0 = 0 ->
  exists ar err tr,
    GetArchiveInfo_verify w ar0 = (Ok (ar, err), tr) /\
    catalog_inv w ar0 ar err tr.
Proof.
  intros Hfiles Htype Hsz. unfold GetArchiveInfo_verify, catalog_inv.
  remember (w_Join w (ai_path ar0) (ai_name ar0)) as p eqn:Hp.
  assert (Hstat : os_Stat w p = (Ok (w_Stat w p), [EvStat p])) by reflexivity.
  change (ai_fullname (set_fullname ar0 p)) with p.
  destruct (w_Stat w p) as [e|fsize] eqn:Es.
  - (* os.Stat fails *)
    eexists _, _, _. split.
    + eapply bind_run; [exact Hstat|]. reflexivity.
    + catalog_parts Es I Hfiles.
      intros H; discriminate H.
  - destruct (getArchiveType_cases w (set_size (set_fullname ar0 p) fsize))
      as ([ar2 err2] & tr2 & Hrun & Hnc & [(e & He & Har)|(He & t & Har & Ht)]);
      simpl in He, Har; subst ar2 err2; apply no_codec_no_content in Hnc.
    + (* detection fails *)
      eexists _, _, _. split.
      * verify_runs Hstat Hrun. reflexivity.
      * rewrite app_nil_r. catalog_parts Es Hnc Hfiles.
        intros H; discriminate H.
    + destruct Ht as [-> | [-> | [-> | ->]]].
      * (* not an archive *)
        eexists _, _, _. split.
        -- verify_runs Hstat Hrun. reflexivity.
        -- rewrite app_nil_r. catalog_parts Es Hnc Hfiles.
           intros _. unfold listing_of. simpl.
           repeat split; intros H; discriminate H.
      * (* Zip *)
        destruct (w_zip w p) as [e|fs] eqn:Ez.
        -- eexists _, _, _. split.
           ++ verify_runs Hstat Hrun.
              rewrite loadFilesInZipArchive_full. simpl. rewrite Ez.
              reflexivity.
           ++ catalog_parts Es Hnc Hfiles.
              intros H; discriminate H.
        -- eexists _, _, _. split.
           ++ verify_runs Hstat Hrun.
              rewrite loadFilesInZipArchive_full. simpl. rewrite Ez.
              reflexivity.
           ++ catalog_parts Es Hnc Hfiles.
              intros _. unfold listing_of. simpl. rewrite Hfiles.
              repeat split; try (intros H; discriminate H).
              intros _. exists fs. split; [exact Ez|reflexivity].
      * (* 7z *)
        destruct (w_sevenzip w p) as [e|fs] eqn:Ez.
        -- eexists _, _, _. split.
           ++ verify_runs Hstat Hrun.
              rewrite loadFilesIn7ZArchive_full. simpl. rewrite Ez.
              reflexivity.
           ++ catalog_parts Es Hnc Hfiles.
              intros H; discriminate H.
        -- eexists _, _, _. split.
           ++ verify_runs Hstat Hrun.
              rewrite loadFilesIn7ZArchive_full. simpl. rewrite Ez.
              reflexivity.
           ++ catalog_parts Es Hnc Hfiles.
              intros _. unfold listing_of. simpl. rewrite Hfiles.
              repeat split; try (intros H; discriminate H).
              intros _. exists fs. split; [exact Ez|reflexivity].
      * (* gzipped tar *)
        destruct (w_Open w p) as [e|file] eqn:Eo;
          [|destruct (w_gzip w file) as [e|ts] eqn:Eg].
        -- eexists _, _, _. split.
           ++ verify_runs Hstat Hrun.
              rewrite loadFilesInTgzArchive_full. simpl. rewrite Eo.
              reflexivity.
           ++ catalog_parts Es Hnc Hfiles.
              intros H; discriminate H.
        -- eexists _, _, _. split.
           ++ verify_runs Hstat Hrun.
              rewrite loadFilesInTgzArchive_full. simpl. rewrite Eo, Eg.
              reflexivity.
           ++ catalog_parts Es Hnc Hfiles.
              intros H; discriminate H.
        -- eexists _, _, _. split.
           ++ verify_runs Hstat Hrun.
              rewrite loadFilesInTgzArchive_full. simpl. rewrite Eo, Eg.
              reflexivity.
           ++ catalog_parts Es Hnc Hfiles.
              unfold listing_of. simpl. rewrite Hfiles.
              destruct (tar_end ts) eqn:Et; simpl;
                try (intros H; discriminate H).
              intros _. repeat split; try (intros H; discriminate H).
              intros _. exists file, ts. repeat split; assumption.
Qed.

Lemma string_length_zero (s : string) :
  (Z.of_nat (String.length s) =? 0) = true <-> s = "".
Proof.
  destruct s; simpl; split; intros H; try reflexivity; discriminate.
Qed.

(** The three ways a run of [GetArchiveInfo] goes: the guarded empty
    directory, a path with a separator, a bare file name. *)
Lemma GetArchiveInfo_run_cases (w : World) (path : string) :
  (strings_Contains path (String (w_PathSeparator w) "") = true /\
   w_Dir w path = "" /\
   GetArchiveInfo w path =
     (Ok (zero_ArchiveInfo, None), [EvPrintf Invalid_input_path])) \/
  (strings_Contains path (String (w_PathSeparator w) "") = true /\
   w_Dir w path <> "" /\
   exists ar err tr,
     GetArchiveInfo w path = (Ok (ar, err), tr) /\
     catalog_inv w
       (set_name (set_path zero_ArchiveInfo (w_Dir w path)) (w_Base w path))
       ar err tr) \/
  (strings_Contains path (String (w_PathSeparator w) "") = false /\
   exists ar err tr,
     GetArchiveInfo w path = (Ok (ar, err), EvGetwd :: tr) /\
     catalog_inv w
       (set_name (set_path zero_ArchiveInfo (fst (w_Getwd w))) path)
       ar err tr).
Proof.
  unfold GetArchiveInfo.
  destruct (strings_Contains path (String (w_PathSeparator w) "")).
  - destruct (Z.of_nat (String.length (w_Dir w path)) =? 0) eqn:El.
    + left. apply string_length_zero in El. auto.
    + right. left. split; [reflexivity|]. split.
      * intros H. apply string_length_zero in H. congruence.
      * apply GetArchiveInfo_verify_catalog; reflexivity.
  - right. right. split; [reflexivity|].
    destruct (GetArchiveInfo_verify_catalog w
                (set_name (set_path zero_ArchiveInfo (fst (w_Getwd w))) path))
      as (ar & err & tr & Hrun & Hinv); try reflexivity.
    exists ar, err, tr. split; [|exact Hinv].
    eapply (bind_run _ _ _ _ [EvGetwd]); [reflexivity|exact Hrun].
Qed.

(** A handle that holds an entry has one of the three archive types. *)
Lemma GetArchiveInfo_nonempty_type (w : World) (path : string)
    (ar : ArchiveInfo) (err : option error) (tr : list event)
    (e : ArchivedFile) :
  GetArchiveInfo w path = (Ok (ar, err), tr) ->
  In e (ai_files ar) ->
  ai_ArchiveType ar = ARCHIVE_ZIP \/ ai_ArchiveType ar = ARCHIVE_TGZ \/
  ai_ArchiveType ar = ARCHIVE_7Z.
Proof.
  intros Hrun Hin.
  assert (Hk : known_type (ai_ArchiveType ar)).
  { destruct (GetArchiveInfo_run_cases w path)
      as [(_ & _ & H)|[(_ & _ & a & b & c & H & Hinv)
                      |(_ & a & b & c & H & Hinv)]];
      rewrite Hrun in H.
    - injection H as -> -> ->. destruct Hin.
    - injection H as <- <- <-.
      destruct Hinv as (_ & _ & _ & _ & _ & Hk & _). exact Hk.
    - injection H as <- <- ->.
      destruct Hinv as (_ & _ & _ & _ & _ & Hk & _). exact Hk. }
  destruct (GetArchiveInfo_inv w path) as (a & b & c & H & _ & Hempty & _).
  rewrite Hrun in H. injection H as <- <- <-.
  destruct Hk as [Hk|[Hk|[Hk|[Hk|Hk]]]]; auto.
  - destruct Hempty as (Hnil & _); [right; exact Hk|].
    rewrite Hnil in Hin. destruct Hin.
  - destruct Hempty as (Hnil & _); [left; exact Hk|].
    rewrite Hnil in Hin. destruct Hin.
Qed.

(** X1.  Every entry of the handle [GetArchiveInfo] returns points back to
    that handle: its [Path()] is the handle's full name, which is
    [filepath.Join] of the handle's [Path()] and [Name()], its tag is the
    handle's [ArchiveType], and that type is Zip, GzippedTar or SevenZip. *)
Theorem GetArchiveInfo_entries_identity (w : World) (path : string)
    (ar : ArchiveInfo) (err : option error) (tr : list event)
    (e : ArchivedFile) :
  GetArchiveInfo w path = (Ok (ar, err), tr) ->
  In e (Files ar) ->
  af_Path e = w_Join w (ai_Path ar) (ai_Name ar) /\
  af_Path e = ai_fullname ar /\
  af_archivetype e = ai_ArchiveType ar /\
  (ai_ArchiveType ar = ARCHIVE_ZIP \/ ai_ArchiveType ar = ARCHIVE_TGZ \/
   ai_ArchiveType ar = ARCHIVE_7Z).
Proof.
  intros Hrun Hin. unfold Files, af_Path, ai_Path, ai_Name in *.
  assert (Hcat : exists ar0, catalog_inv w ar0 ar err tr \/
                             catalog_inv w ar0 ar err (tl tr)).
  { destruct (GetArchiveInfo_run_cases w path)
      as [(_ & _ & H)|[(_ & _ & a & b & c & H & Hinv)
                      |(_ & a & b & c & H & Hinv)]];
      rewrite Hrun in H.
    - injection H as -> -> ->. destruct Hin.
    - injection H as <- <- <-. eexists. left. exact Hinv.
    - injection H as <- <- ->. eexists. right. exact Hinv. }
  assert (Hparts :
            (exists ar0, ai_path ar = ai_path ar0 /\ ai_name ar = ai_name ar0 /\
                         ai_fullname ar = w_Join w (ai_path ar0) (ai_name ar0)) /\
            known_type (ai_ArchiveType ar) /\
            Forall (fun e => af_archivefile e = ai_fullname ar /\
                             af_archivetype e = ai_ArchiveType ar)
              (ai_files ar)).
  { destruct Hcat as (ar0 & [H|H]);
      destruct H as (H1 & H2 & H3 & _ & _ & H6 & H7 & _); eauto 10. }
  destruct Hparts as ((ar0 & Hp & Hn & Hf) & Hk & Hall).
  rewrite Forall_forall in Hall. destruct (Hall e Hin) as (He1 & He2).
  rewrite Hp, Hn, He1, He2. repeat split; auto.
  exact (GetArchiveInfo_nonempty_type w path ar err tr e Hrun Hin).
Qed.

Lemma GetArchiveInfo_entries_identity_witness :
  exists ar,
    fst (GetArchiveInfo Fixtures.world "/data/test.zip") = Ok (ar, None) /\
    Files ar <> [] /\
    forall e, In e (Files ar) ->
              af_Path e = "/data/test.zip" /\ af_archivetype e = ARCHIVE_ZIP.
Proof.
  eexists. split; [reflexivity|]. split; [discriminate|].
  intros e He.
  destruct (GetArchiveInfo_entries_identity Fixtures.world "/data/test.zip"
              _ _ _ e eq_refl He) as (_ & H2 & H3 & _).
  split; [rewrite H2|rewrite H3]; reflexivity.
Defined.

(** X2.  How [GetArchiveInfo] splits its argument.  A path without a
    separator is taken as a file name in the working directory, whatever
    error [os.Getwd] reports; a path with a separator and a non-empty
    directory part is split by [filepath.Dir] and [filepath.Base].  In both
    cases the full name is [filepath.Join] of the two, whether or not the
    call then succeeds. *)
Theorem GetArchiveInfo_path_split (w : World) (path : string)
    (ar : ArchiveInfo) (err : option error) (tr : list event) :
  GetArchiveInfo w path = (Ok (ar, err), tr) ->
  (strings_Contains path (String (w_PathSeparator w) "") = false ->
   ai_Path ar = fst (w_Getwd w) /\ ai_Name ar = path /\
   ai_fullname ar = w_Join w (fst (w_Getwd w)) path) /\
  (strings_Contains path (String (w_PathSeparator w) "") = true ->
   w_Dir w path <> "" ->
   ai_Path ar = w_Dir w path /\ ai_Name ar = w_Base w path /\
   ai_fullname ar = w_Join w (w_Dir w path) (w_Base w path)).
Proof.
  intros Hrun. unfold ai_Path, ai_Name.
  destruct (GetArchiveInfo_run_cases w path)
    as [(Hc & Hd & H)|[(Hc & Hd & a & b & c & H & Hinv)
                      |(Hc & a & b & c & H & Hinv)]];
    rewrite Hrun in H.
  - split; [intros Ha; congruence|intros _ Hb; congruence].
  - injection H as <- <- <-.
    destruct Hinv as (E1 & E2 & E3 & _).
    split; [intros Ha; congruence|intros _ _; auto].
  - injection H as <- <- ->.
    destruct Hinv as (E1 & E2 & E3 & _).
    split; [intros _; auto|intros Ha; congruence].
Qed.

Lemma GetArchiveInfo_path_split_witness :
  exists ar err ar' err',
    fst (GetArchiveInfo Fixtures.world "x.zip") = Ok (ar, err) /\
    ai_Path ar = "/work" /\ ai_Name ar = "x.zip" /\
    ai_fullname ar = "/work/x.zip" /\
    fst (GetArchiveInfo Fixtures.world "/data/notes.txt") = Ok (ar', err') /\
    ai_Path ar' = "/data" /\ ai_Name ar' = "notes.txt" /\
    ai_fullname ar' = "/data/notes.txt".
Proof.
  eexists _, _, _, _.
  destruct (GetArchiveInfo_path_split Fixtures.world "x.zip" _ _ _ eq_refl)
    as (H & _).
  destruct (GetArchiveInfo_path_split Fixtures.world "/data/notes.txt"
              _ _ _ eq_refl) as (_ & H').
  destruct (H eq_refl) as (H1 & H2 & H3).
  destruct H' as (H1' & H2' & H3'); [reflexivity|discriminate|].
  split; [reflexivity|]. split; [exact H1|]. split; [exact H2|].
  split; [exact H3|]. split; [reflexivity|]. split; [exact H1'|].
  split; [exact H2'|exact H3'].
Defined.

(** X3.  Past the path split, the handle's [Size()] is the size [os.Stat]
    reports for the full name, even when detection or cataloging then fails;
    when [os.Stat] fails, its error is returned as it is, the handle keeps
    size 0, type Uninitialized and no entries, and the file is never
    opened. *)
Theorem GetArchiveInfo_stat_outcome (w : World) (path : string)
    (ar : ArchiveInfo) (err : option error) (tr : list event) :
  GetArchiveInfo w path = (Ok (ar, err), tr) ->
  strings_Contains path (String (w_PathSeparator w) "") = false \/
  w_Dir w path <> "" ->
  (forall fsize,
     w_Stat w (w_Join w (ai_Path ar) (ai_Name ar)) = inr fsize ->
     ai_Size ar = fsize) /\
  (forall e,
     w_Stat w (w_Join w (ai_Path ar) (ai_Name ar)) = inl e ->
     err = Some e /\ ai_Size ar = 0 /\
     ai_ArchiveType ar = ARCHIVE_UNINIT /\ Files ar = [] /\
     Forall (fun ev => is_ev_file_access ev = false) tr).
Proof.
  intros Hrun Hloc. unfold ai_Path, ai_Name, ai_Size, Files.
  assert (Hcat : exists ar0 tr',
             catalog_inv w ar0 ar err tr' /\ (tr = tr' \/ tr = EvGetwd :: tr')).
  { destruct (GetArchiveInfo_run_cases w path)
      as [(Hc & Hd & H)|[(Hc & Hd & a & b & c & H & Hinv)
                        |(Hc & a & b & c & H & Hinv)]];
      rewrite Hrun in H.
    - destruct Hloc; congruence.
    - injection H as <- <- <-. eauto.
    - injection H as <- <- ->. eauto. }
  destruct Hcat as (ar0 & tr' & (H1 & H2 & H3 & H4 & H5 & _) & Htr).
  rewrite H1, H2, <- H3. split; [exact H4|].
  intros e He. destruct (H5 e He) as (E1 & E2 & E3 & E4 & E5).
  repeat split; auto.
  destruct Htr as [-> | ->]; rewrite E5; repeat constructor.
Qed.

Lemma GetArchiveInfo_stat_outcome_witness :
  exists ar ar' tr',
    fst (GetArchiveInfo Fixtures.world "/data/tiny") = Ok (ar, None) /\
    ai_Size ar = 3 /\
    GetArchiveInfo Fixtures.world "/nowhere/x.zip" =
      (Ok (ar', Some Fixtures.no_such_file), tr') /\
    ai_Size ar' = 0 /\ ai_ArchiveType ar' = ARCHIVE_UNINIT /\
    Files ar' = [] /\
    Forall (fun ev => is_ev_file_access ev = false) tr'.
Proof.
  eexists _, _, _.
  destruct (GetArchiveInfo_stat_outcome Fixtures.world "/data/tiny"
              _ _ _ eq_refl) as (H & _); [right; discriminate|].
  destruct (GetArchiveInfo_stat_outcome Fixtures.world "/nowhere/x.zip"
              _ _ _ eq_refl) as (_ & H'); [right; discriminate|].
  destruct (H' Fixtures.no_such_file eq_refl) as (_ & E2 & E3 & E4 & E5).
  split; [reflexivity|]. split; [apply H; reflexivity|].
  split; [reflexivity|]. auto.
Defined.

Lemma GetArchiveInfo_listing (w : World) (path : string)
    (ar : ArchiveInfo) (tr : list event) :
  GetArchiveInfo w path = (Ok (ar, None), tr) -> listing_of w ar.
Proof.
  intros Hrun.
  destruct (GetArchiveInfo_run_cases w path)
    as [(Hc & Hd & H)|[(Hc & Hd & a & b & c & H & Hinv)
                      |(Hc & a & b & c & H & Hinv)]];
    rewrite Hrun in H.
  - injection H as -> _. unfold listing_of. simpl.
    repeat split; intros E; discriminate E.
  - injection H as <- <- <-.
    destruct Hinv as (_ & _ & _ & _ & _ & _ & _ & _ & Hl). auto.
  - injection H as <- <- ->.
    destruct Hinv as (_ & _ & _ & _ & _ & _ & _ & _ & Hl). auto.
Qed.

(** X7.  When [GetArchiveInfo] returns a nil error, the catalog is the
    container's listing, entry for entry and in the codec's order, nothing
    merged, sorted or dropped: for Zip and SevenZip the entries of the opened
    reader, for GzippedTar the headers of a stream that ended with
    [io.EOF]. *)
Theorem GetArchiveInfo_success_listing (w : World) (path : string)
    (ar : ArchiveInfo) (tr : list event) :
  GetArchiveInfo w path = (Ok (ar, None), tr) ->
  (ai_ArchiveType ar = ARCHIVE_ZIP ->
   exists fs, w_zip w (ai_fullname ar) = inr fs /\
              Files ar = map (arFile_zip ar) fs /\
              map af_Name (Files ar) = map zf_Name fs) /\
  (ai_ArchiveType ar = ARCHIVE_7Z ->
   exists fs, w_sevenzip w (ai_fullname ar) = inr fs /\
              Files ar = map (arFile_7z ar) fs /\
              map af_Name (Files ar) = map sz_Name fs) /\
  (ai_ArchiveType ar = ARCHIVE_TGZ ->
   exists file ts,
     w_Open w (ai_fullname ar) = inr file /\ w_gzip w file = inr ts /\
     tar_end ts = io_EOF /\
     Files ar = map (fun e => arFile_tgz ar (te_head e)) (tar_entries ts) /\
     map af_Name (Files ar) =
       map (fun e => th_Name (te_head e)) (tar_entries ts)).
Proof.
  intros Hrun. unfold Files.
  pose proof (GetArchiveInfo_listing w path ar tr Hrun) as Hl.
  destruct Hl as (Hz & H7 & Ht). repeat split.
  - intros E. destruct (Hz E) as (fs & Ho & Hf). exists fs.
    repeat split; auto. rewrite Hf, map_map. reflexivity.
  - intros E. destruct (H7 E) as (fs & Ho & Hf). exists fs.
    repeat split; auto. rewrite Hf, map_map. reflexivity.
  - intros E. destruct (Ht E) as (file & ts & Ho & Hg & He & Hf).
    exists file, ts. repeat split; auto. rewrite Hf, map_map. reflexivity.
Qed.

Lemma GetArchiveInfo_success_listing_witness :
  exists ar,
    fst (GetArchiveInfo Fixtures.world "/data/sz_test.7z") = Ok (ar, None) /\
    map af_Name (Files ar) = ["random_text.txt"; "a.txt"; "b.txt"].
Proof.
  eexists. split; [reflexivity|].
  destruct (GetArchiveInfo_success_listing Fixtures.world "/data/sz_test.7z"
              _ _ eq_refl) as (_ & H & _).
  destruct (H eq_refl) as (fs & Ho & _ & Hn).
  vm_compute in Ho. injection Ho as <-. exact Hn.
Defined.

(** X8.  Cataloging enumerates without touching content: no run of
    [GetArchiveInfo] opens an entry or reads an entry's payload. *)
Theorem GetArchiveInfo_reads_no_content (w : World) (path : string) :
  Forall (fun e => is_ev_content e = false) (snd (GetArchiveInfo w path)).
Proof.
  destruct (GetArchiveInfo_run_cases w path)
    as [(Hc & Hd & H)|[(Hc & Hd & a & b & c & H & Hinv)
                      |(Hc & a & b & c & H & Hinv)]];
    rewrite H; simpl.
  - repeat constructor.
  - destruct Hinv as (_ & _ & _ & _ & _ & _ & _ & Hc' & _). exact Hc'.
  - destruct Hinv as (_ & _ & _ & _ & _ & _ & _ & Hc' & _).
    constructor; [reflexivity|exact Hc'].
Qed.

(** ** Further properties of detection *)

(** X4.  I/O errors during detection come back as they are, not wrapped,
    and leave the handle (its type included) untouched: a failing [os.Open],
    a failing [Read] (the file is closed again), and a file of recorded size
    at least 5 that turns out empty, for which the error is [io.EOF]. *)
Theorem getArchiveType_io_errors (w : World) (ar : ArchiveInfo) :
  5 <= ai_size ar ->
  (forall e, w_Open w (ai_fullname ar) = inl e ->
     getArchiveType w ar = (Ok (ar, Some e), [EvOpen (ai_fullname ar)])) /\
  (forall f e,
     w_Open w (ai_fullname ar) = inr f -> file_read_err f = Some e ->
     getArchiveType w ar =
       (Ok (ar, Some e),
        [EvOpen (ai_fullname ar); EvFileRead (ai_fullname ar) 5;
         EvFileClose (ai_fullname ar)])) /\
  (forall f,
     w_Open w (ai_fullname ar) = inr f -> file_read_err f = None ->
     file_bytes f = [] ->
     getArchiveType w ar =
       (Ok (ar, Some io_EOF),
        [EvOpen (ai_fullname ar); EvFileRead (ai_fullname ar) 5;
         EvFileClose (ai_fullname ar)])).
Proof.
  intros Hsize. apply Z.ltb_ge in Hsize.
  unfold getArchiveType. rewrite Hsize.
  unfold make_bytes, os_Open, file_Read, deferring, bind, emit, ret. simpl.
  repeat split.
  - intros e ->. reflexivity.
  - intros f e -> Hr. simpl. rewrite Hr. reflexivity.
  - intros f -> Hr Hb. simpl. rewrite Hr, Hb. reflexivity.
Qed.

Lemma getArchiveType_io_errors_witness :
  getArchiveType Fixtures.world
    (mkArchiveInfo "/nowhere" "x.zip" "/nowhere/x.zip" 9 ARCHIVE_UNINIT []) =
  (Ok (mkArchiveInfo "/nowhere" "x.zip" "/nowhere/x.zip" 9 ARCHIVE_UNINIT [],
       Some Fixtures.no_such_file),
   [EvOpen "/nowhere/x.zip"]).
Proof.
  destruct (getArchiveType_io_errors Fixtures.world
              (mkArchiveInfo "/nowhere" "x.zip" "/nowhere/x.zip" 9
                 ARCHIVE_UNINIT [])) as (H & _); [simpl; lia|].
  apply (H Fixtures.no_such_file). reflexivity.
Defined.

(** ** Further properties of the gzipped-tar cataloger *)

(** X5.  A gzipped tar that ends cleanly is cataloged in full with a nil
    error: [io.EOF] from [Next] ends the loop and is not reported.  The
    cataloger calls [Next] once per header and once more for the end, then
    closes the gzip reader and the file, in that order. *)
Theorem loadFilesInTgzArchive_clean_end (w : World) (ar : ArchiveInfo)
    (file : OsFile) (ts : TarStream) :
  w_Open w (ai_fullname ar) = inr file ->
  w_gzip w file = inr ts ->
  tar_end ts = io_EOF ->
  loadFilesInTgzArchive w ar =
    (Ok (set_files ar
           (ai_files ar ++
            map (fun e => arFile_tgz ar (te_head e)) (tar_entries ts)),
         None),
     [EvCall loadTgz; EvOpen (ai_fullname ar);
      EvGzipNewReader (ai_fullname ar)] ++
     repeat (EvTarNext (ai_fullname ar)) (S (List.length (tar_entries ts))) ++
     [EvGzipClose (ai_fullname ar); EvFileClose (ai_fullname ar)]).
Proof.
  intros Ho Hg He.
  rewrite loadFilesInTgzArchive_full, Ho, Hg, He. reflexivity.
Qed.

Lemma loadFilesInTgzArchive_clean_end_witness :
  let ar := mkArchiveInfo "/data" "tgz_test.tgz" "/data/tgz_test.tgz" 5
              ARCHIVE_TGZ [] in
  loadFilesInTgzArchive Fixtures.world ar =
    (Ok (set_files ar
           [mkArchivedFile "/data/tgz_test.tgz" ARCHIVE_TGZ "sub/" 0 false
              2147484141 1700000007;
            mkArchivedFile "/data/tgz_test.tgz" ARCHIVE_TGZ
              "sub/random_text.txt" 9 false 420 1700000008],
         None),
     [EvCall loadTgz; EvOpen "/data/tgz_test.tgz";
      EvGzipNewReader "/data/tgz_test.tgz";
      EvTarNext "/data/tgz_test.tgz"; EvTarNext "/data/tgz_test.tgz";
      EvTarNext "/data/tgz_test.tgz";
      EvGzipClose "/data/tgz_test.tgz"; EvFileClose "/data/tgz_test.tgz"]).
Proof.
  intros ar.
  apply (loadFilesInTgzArchive_clean_end Fixtures.world ar
           (mkOsFile (Fixtures.gz_magic ++ [Byte.x01]) None) Fixtures.tgz_test);
    reflexivity.
Defined.

(** X6.  When the gzipped-tar cataloger cannot open the file, or the file
    is not a gzip stream, it returns the error wrapped in a message that
    names the path and appends nothing; in the second case the file it
    opened is closed again. *)
Theorem loadFilesInTgzArchive_open_failure (w : World) (ar : ArchiveInfo) :
  (forall e, w_Open w (ai_fullname ar) = inl e ->
     loadFilesInTgzArchive w ar =
       (Ok (ar, Some (wrapError
                        (String.append "Could not open "
                           (String.append (ai_fullname ar)
                              (String.append ".  " (Error e)))) e)),
        [EvCall loadTgz; EvOpen (ai_fullname ar)])) /\
  (forall file e,
     w_Open w (ai_fullname ar) = inr file -> w_gzip w file = inl e ->
     loadFilesInTgzArchive w ar =
       (Ok (ar, Some (wrapError
                        (String.append "Could not open "
                           (String.append (ai_fullname ar)
                              (String.append ".  " (Error e)))) e)),
        [EvCall loadTgz; EvOpen (ai_fullname ar);
         EvGzipNewReader (ai_fullname ar); EvFileClose (ai_fullname ar)])).
Proof.
  split.
  - intros e Ho. rewrite loadFilesInTgzArchive_full, Ho. reflexivity.
  - intros file e Ho Hg. rewrite loadFilesInTgzArchive_full, Ho, Hg.
    reflexivity.
Qed.

Lemma loadFilesInTgzArchive_open_failure_witness :
  let ar := mkArchiveInfo "/data" "notes.txt" "/data/notes.txt" 10
              ARCHIVE_TGZ [] in
  loadFilesInTgzArchive Fixtures.world ar =
    (Ok (ar, Some (wrapError
                     "Could not open /data/notes.txt.  gzip: invalid header"
                     (errors_New "gzip: invalid header"))),
     [EvCall loadTgz; EvOpen "/data/notes.txt";
      EvGzipNewReader "/data/notes.txt"; EvFileClose "/data/notes.txt"]).
Proof.
  intros ar.
  destruct (loadFilesInTgzArchive_open_failure Fixtures.world ar) as (_ & H).
  apply (H (mkOsFile (Fixtures.bytes_of "plain text") None)
           (errors_New "gzip: invalid header")); reflexivity.
Defined.

(** ** Lookup after cataloging *)

Lemma IndexFunc_from_find {A : Type} (f : A -> bool) (s : list A) (i : Z) :
  match find f s with
  | Some x =>
      exists k, IndexFunc_from i s f = i + Z.of_nat k /\ nth_error s k = Some x
  | None => IndexFunc_from i s f = -1
  end.
Proof.
  revert i. induction s as [|a s IH]; intros i; simpl; [reflexivity|].
  destruct (f a).
  - exists 0%nat. split; [simpl; lia|reflexivity].
  - specialize (IH (i + 1)). destruct (find f s); [|exact IH].
    destruct IH as (k & Hk & Hn). exists (S k). split; [lia|exact Hn].
Qed.

(** [File] is [find] on the catalog. *)
Lemma File_find (ai : ArchiveInfo) (fname : string) :
  File ai fname = find (fun e => String.eqb (af_name e) fname) (ai_files ai).
Proof.
  unfold File, IndexFunc, len.
  destruct (ai_files ai) as [|a l] eqn:E; [reflexivity|].
  replace (Z.of_nat (List.length (a :: l)) =? 0) with false
    by (symmetry; apply Z.eqb_neq; simpl; lia).
  pose proof (IndexFunc_from_find (fun e => String.eqb (af_name e) fname)
                (a :: l) 0) as H.
  destruct (find _ (a :: l)) as [x|].
  - destruct H as (k & Hk & Hn). rewrite Hk.
    replace (0 + Z.of_nat k =? -1) with false
      by (symmetry; apply Z.eqb_neq; lia).
    rewrite Z.add_0_l, Nat2Z.id. exact Hn.
  - rewrite H. reflexivity.
Qed.

Lemma find_unique_name {A : Type} (g : A -> string) (l : list A) (e : A) :
  NoDup (map g l) -> In e l ->
  find (fun x => String.eqb (g x) (g e)) l = Some e.
Proof.
  induction l as [|a l IH]; intros Hnd Hin; [destruct Hin|].
  simpl in *. inversion Hnd as [|? ? Hnotin Hnd']; subst.
  destruct Hin as [->|Hin].
  - rewrite String.eqb_refl. reflexivity.
  - destruct (String.eqb_spec (g a) (g e)) as [E|E].
    + exfalso. apply Hnotin. rewrite E. apply in_map. exact Hin.
    + apply IH; assumption.
Qed.

(** X9.  Lookup finds what the catalog holds: for every entry of [Files()],
    [File] called with the entry's name returns an entry of that name, never
    nil; when the names of the catalog are all different it returns that very
    entry. *)
Theorem File_finds_cataloged (ai : ArchiveInfo) (e : ArchivedFile) :
  In e (Files ai) ->
  (exists e', File ai (af_Name e) = Some e' /\ af_Name e' = af_Name e) /\
  (NoDup (map af_Name (Files ai)) -> File ai (af_Name e) = Some e).
Proof.
  unfold Files, af_Name. intros Hin. rewrite File_find. split.
  - destruct (find (fun x => String.eqb (af_name x) (af_name e)) (ai_files ai))
      as [e'|] eqn:F.
    + exists e'. split; [reflexivity|].
      apply find_some in F. apply String.eqb_eq. apply F.
    + exfalso. pose proof (find_none _ _ F e Hin) as H. simpl in H.
      rewrite String.eqb_refl in H. discriminate H.
  - intros Hnd. apply (find_unique_name af_name); assumption.
Qed.

Lemma File_finds_cataloged_witness :
  let e := mkArchivedFile "/data/sz_test.7z" ARCHIVE_7Z "a.txt" 1 false 420
             1700000005 in
  let ai := mkArchiveInfo "/data" "sz_test.7z" "/data/sz_test.7z" 6 ARCHIVE_7Z
              (map (arFile_7z (mkArchiveInfo "/data" "sz_test.7z"
                                 "/data/sz_test.7z" 6 ARCHIVE_7Z []))
                 Fixtures.sz_test) in
  File ai "a.txt" = Some e.
Proof.
  intros e ai.
  destruct (File_finds_cataloged ai e) as (_ & H).
  - right. left. reflexivity.
  - apply H. repeat constructor; simpl; intuition discriminate.
Defined.

Lemma find_map_named {A : Type} (mk : A -> ArchivedFile) (name_of : A -> string)
    (n : string) (xs : list A) :
  (forall x, af_name (mk x) = name_of x) ->
  find (fun e => String.eqb (af_name e) n) (map mk xs) =
  option_map mk (first_named name_of n xs).
Proof.
  intros Hn. unfold first_named.
  induction xs as [|x xs IH]; simpl; [reflexivity|].
  rewrite Hn. destruct (String.eqb (name_of x) n); [reflexivity|exact IH].
Qed.

Lemma first_named_name {A : Type} (name_of : A -> string) (n : string)
    (xs : list A) (x : A) :
  first_named name_of n xs = Some x -> name_of x = n.
Proof.
  unfold first_named. intros H. apply find_some in H.
  apply String.eqb_eq. apply H.
Qed.

Lemma first_named_split {A : Type} (name_of : A -> string) (n : string)
    (xs : list A) (x : A) :
  first_named name_of n xs = Some x ->
  exists pre post,
    xs = pre ++ x :: post /\
    (forall y, In y pre -> name_of y <> n) /\
    name_of x = n.
Proof.
  unfold first_named. induction xs as [|a xs IH]; simpl; [discriminate|].
  destruct (String.eqb_spec (name_of a) n) as [E|E].
  - intros [= <-]. exists [], xs.
    split; [reflexivity|]. split; [intros y []|exact E].
  - intros H. destruct (IH H) as (pre & post & -> & Hpre & Hx).
    exists (a :: pre), post.
    split; [reflexivity|]. split; [|exact Hx].
    intros y [<-|Hy]; [exact E|apply Hpre; exact Hy].
Qed.

(** X10.  Lookup and extraction agree on which entry a name means.  After a
    successful [GetArchiveInfo], the entry [File] returns for a name is the
    record of the first entry of that name in the container, and [GetBytes]
    on it reads the stream of that same container entry, into a buffer of
    that entry's recorded size: also when the container holds the name more
    than once. *)
Theorem File_then_GetBytes_same_entry (w : World) (path : string)
    (ar : ArchiveInfo) (tr : list event) (n : string) (e : ArchivedFile) :
  GetArchiveInfo w path = (Ok (ar, None), tr) ->
  File ar n = Some e ->
  0 <= af_size e <= w_maxAlloc w ->
  (exists pre f post,
     w_zip w (ai_fullname ar) = inr (pre ++ f :: post) /\
     (forall x, In x pre -> zf_Name x <> n) /\ zf_Name f = n /\
     e = arFile_zip ar f /\
     fst (GetBytes w e) =
       match zf_Open f with
       | inl oerr => Ok (None, Some oerr)
       | inr r =>
           Ok (Some (fst (Read r (repeat Byte.x00 (Z.to_nat (af_size e))))),
               None)
       end) \/
  (exists pre f post,
     w_sevenzip w (ai_fullname ar) = inr (pre ++ f :: post) /\
     (forall x, In x pre -> sz_Name x <> n) /\ sz_Name f = n /\
     e = arFile_7z ar f /\
     fst (GetBytes w e) =
       match sz_Open f with
       | inl oerr => Ok (None, Some oerr)
       | inr r =>
           Ok (Some (fst (Read r (repeat Byte.x00 (Z.to_nat (af_size e))))),
               None)
       end) \/
  (exists file ts pre te post,
     w_Open w (ai_fullname ar) = inr file /\ w_gzip w file = inr ts /\
     tar_entries ts = pre ++ te :: post /\
     (forall x, In x pre -> th_Name (te_head x) <> n) /\
     th_Name (te_head te) = n /\
     e = arFile_tgz ar (te_head te) /\
     fst (GetBytes w e) =
       Ok (Some (fst (Read (te_data te)
                        (repeat Byte.x00 (Z.to_nat (af_size e))))), None)).
Proof.
  intros Hrun Hfile Hsize.
  pose proof (GetArchiveInfo_listing w path ar tr Hrun) as (Hz & H7 & Ht).
  rewrite File_find in Hfile.
  assert (Hin : In e (ai_files ar)) by (apply find_some in Hfile; apply Hfile).
  destruct (GetArchiveInfo_nonempty_type w path ar None tr e Hrun Hin)
    as [Hk|[Hk|Hk]].
  - left. destruct (Hz Hk) as (fs & Ho & Hf).
    rewrite Hf, (find_map_named (arFile_zip ar) zf_Name) in Hfile
      by reflexivity.
    destruct (first_named zf_Name n fs) as [f|] eqn:Ff; [|discriminate Hfile].
    injection Hfile as <-.
    destruct (first_named_split _ _ _ _ Ff) as (pre & post & Hfs & Hpre & Hn).
    exists pre, f, post. rewrite <- Hfs. repeat split; auto.
    assert (Hc : codec_open w (arFile_zip ar f) = Some (zf_Open f)).
    { unfold codec_open. simpl. rewrite Ho, Hn, Ff. reflexivity. }
    rewrite (GetBytes_codec_open w _ _ Hsize Hc). reflexivity.
  - right. right. destruct (Ht Hk) as (file & ts & Ho & Hg & _ & Hf).
    rewrite Hf,
      (find_map_named (fun x => arFile_tgz ar (te_head x))
         (fun x => th_Name (te_head x))) in Hfile by reflexivity.
    destruct (first_named (fun x => th_Name (te_head x)) n (tar_entries ts))
      as [te|] eqn:Ff; [|discriminate Hfile].
    injection Hfile as <-.
    destruct (first_named_split _ _ _ _ Ff) as (pre & post & Hfs & Hpre & Hn).
    exists file, ts, pre, te, post. repeat split; auto.
    assert (Hc : codec_open w (arFile_tgz ar (te_head te)) =
                 Some (inr (te_data te))).
    { unfold codec_open. simpl. rewrite Ho, Hg, Hn, Ff. reflexivity. }
    rewrite (GetBytes_codec_open w _ _ Hsize Hc). reflexivity.
  - right. left. destruct (H7 Hk) as (fs & Ho & Hf).
    rewrite Hf, (find_map_named (arFile_7z ar) sz_Name) in Hfile
      by reflexivity.
    destruct (first_named sz_Name n fs) as [f|] eqn:Ff; [|discriminate Hfile].
    injection Hfile as <-.
    destruct (first_named_split _ _ _ _ Ff) as (pre & post & Hfs & Hpre & Hn).
    exists pre, f, post. rewrite <- Hfs. repeat split; auto.
    assert (Hc : codec_open w (arFile_7z ar f) = Some (sz_Open f)).
    { unfold codec_open. simpl. rewrite Ho, Hn, Ff. reflexivity. }
    rewrite (GetBytes_codec_open w _ _ Hsize Hc). reflexivity.
Qed.

(** On the archive that holds "a.txt" twice, with 3 and with 5 bytes:
    lookup returns the record of the first, and extraction reads the
    first. *)
Lemma File_then_GetBytes_same_entry_witness :
  exists ar e,
    fst (GetArchiveInfo Fixtures.world_dup "/data/dup.zip") = Ok (ar, None) /\
    map (fun x => (af_Name x, af_Size x)) (Files ar) =
      [("a.txt", 3); ("b.txt", 3); ("a.txt", 5)] /\
    File ar "a.txt" = Some e /\
    af_Size e = 3 /\
    fst (GetBytes Fixtures.world_dup e) =
      Ok (Some (Fixtures.bytes_of "one"), None).
Proof.
  eexists _, _. split; [reflexivity|]. split; [reflexivity|].
  split; [reflexivity|]. split; [reflexivity|].
  destruct (File_then_GetBytes_same_entry Fixtures.world_dup "/data/dup.zip"
              _ _ "a.txt" _ eq_refl eq_refl)
    as [(pre & f & post & Ho & Hpre & Hn & _ & Hrun)
       |[(pre & f & post & Ho & _)|(file & ts & pre & te & post & _ & Hg & _)]].
  - size_in_range.
  - destruct pre as [|x pre].
    + injection Ho as <- _. exact Hrun.
    + injection Ho as <- _. exfalso. apply (Hpre _ (or_introl eq_refl)).
      reflexivity.
  - discriminate Ho.
  - discriminate Hg.
Defined.

(** ** Further properties of extraction *)

Section ExtractionRuns.

Context (w : World) (af : ArchivedFile).

Lemma extractZip_loop_first (pre post : list ZipFile) (f : ZipFile)
    (buffer : list byte) :
  (forall x, In x pre -> zf_Name x <> af_name af) ->
  zf_Name f = af_name af ->
  extractZip_loop af (pre ++ f :: post) buffer =
  match zf_Open f with
  | inl e =>
      (Ok (None, Some e), [EvEntryOpen (af_archivefile af) (af_name af)])
  | inr r =>
      (Ok (Some (fst (Read r buffer)), None),
       [EvEntryOpen (af_archivefile af) (af_name af);
        EvEntryRead (af_archivefile af) (af_name af) (len buffer);
        EvEntryClose (af_archivefile af) (af_name af)])
  end.
Proof.
  intros Hpre Hf. induction pre as [|x pre IH]; simpl.
  - rewrite Hf, String.eqb_refl. simpl.
    unfold entry_Open, entry_Read, deferring, bind, emit, ret. simpl.
    destruct (zf_Open f); reflexivity.
  - destruct (String.eqb_spec (zf_Name x) (af_name af)) as [E|E]; simpl.
    + exfalso. apply (Hpre x); [left; reflexivity|exact E].
    + apply IH. intros y Hy. apply Hpre. right. exact Hy.
Qed.

Lemma extract7Z_loop_first (pre post : list SzFile) (f : SzFile)
    (buffer : list byte) :
  (forall x, In x pre -> sz_Name x <> af_name af) ->
  sz_Name f = af_name af ->
  extract7Z_loop af (pre ++ f :: post) buffer =
  match sz_Open f with
  | inl e =>
      (Ok (None, Some e), [EvEntryOpen (af_archivefile af) (af_name af)])
  | inr r =>
      (Ok (Some (fst (Read r buffer)), None),
       [EvEntryOpen (af_archivefile af) (af_name af);
        EvEntryRead (af_archivefile af) (af_name af) (len buffer);
        EvEntryClose (af_archivefile af) (af_name af)])
  end.
Proof.
  intros Hpre Hf. induction pre as [|x pre IH]; simpl.
  - rewrite Hf, String.eqb_refl. simpl.
    unfold entry_Open, entry_Read, deferring, bind, emit, ret. simpl.
    destruct (sz_Open f); reflexivity.
  - destruct (String.eqb_spec (sz_Name x) (af_name af)) as [E|E]; simpl.
    + exfalso. apply (Hpre x); [left; reflexivity|exact E].
    + apply IH. intros y Hy. apply Hpre. right. exact Hy.
Qed.

Lemma extractTgz_locate_first (pre post : list TarEntry) (e : TarEntry)
    (tend : error) :
  (forall x, In x pre -> th_Name (te_head x) <> af_name af) ->
  th_Name (te_head e) = af_name af ->
  extractTgz_locate af (pre ++ e :: post) tend =
  (Ok (Some (te_data e), None),
   repeat (EvTarNext (af_archivefile af)) (S (List.length pre))).
Proof.
  intros Hpre He. induction pre as [|x pre IH]; simpl.
  - unfold bind, emit. simpl. rewrite He, String.eqb_refl. reflexivity.
  - unfold bind, emit. simpl.
    destruct (String.eqb_spec (th_Name (te_head x)) (af_name af)) as [E|E];
      simpl.
    + exfalso. apply (Hpre x); [left; reflexivity|exact E].
    + rewrite IH; [reflexivity|].
      intros y Hy. apply Hpre. right. exact Hy.
Qed.

End ExtractionRuns.

(** X11.  For a recorded size that is non-negative and within what [make]
    can allocate, the Zip extractor stops at the first entry that bears the
    name:
    entries before it are skipped without being opened, entries after it are
    never looked at.  It opens that one entry, reads once into a buffer of
    [af_size] bytes, and closes the entry and then the reader.  When the
    entry does not open, its error is returned as it is with no bytes, and
    the reader is still closed. *)
Theorem extractZipFileBytes_first_match (w : World) (af : ArchivedFile)
    (pre post : list ZipFile) (f : ZipFile) :
  0 <= af_size af <= w_maxAlloc w ->
  w_zip w (af_archivefile af) = inr (pre ++ f :: post) ->
  (forall x, In x pre -> zf_Name x <> af_name af) ->
  zf_Name f = af_name af ->
  extractZipFileBytes w af =
  match zf_Open f with
  | inl e =>
      (Ok (None, Some e),
       [EvCall extractZip; EvZipOpenReader (af_archivefile af);
        EvEntryOpen (af_archivefile af) (af_name af);
        EvZipClose (af_archivefile af)])
  | inr r =>
      (Ok (Some (fst (Read r (repeat Byte.x00 (Z.to_nat (af_size af))))), None),
       [EvCall extractZip; EvZipOpenReader (af_archivefile af);
        EvEntryOpen (af_archivefile af) (af_name af);
        EvEntryRead (af_archivefile af) (af_name af) (af_size af);
        EvEntryClose (af_archivefile af) (af_name af);
        EvZipClose (af_archivefile af)])
  end.
Proof.
  intros Hsize Hopen Hpre Hf. unfold extractZipFileBytes.
  rewrite (make_bytes_served _ _ Hsize).
  unfold zip_OpenReader, deferring, bind, emit, ret. simpl.
  rewrite Hopen. simpl.
  rewrite (extractZip_loop_first af pre post f _ Hpre Hf).
  assert (L : @len byte (repeat Byte.x00 (Z.to_nat (af_size af))) = af_size af)
    by (apply len_zeros; apply Hsize).
  rewrite L. destruct (zf_Open f); reflexivity.
Qed.

Lemma extractZipFileBytes_first_match_witness :
  extractZipFileBytes Fixtures.world
    (mkArchivedFile "/data/test.zip" ARCHIVE_ZIP "dirhelp.txt" 14 false 420
       1700000001) =
  (Ok (Some (Fixtures.bytes_of "subdirectories"), None),
   [EvCall extractZip; EvZipOpenReader "/data/test.zip";
    EvEntryOpen "/data/test.zip" "dirhelp.txt";
    EvEntryRead "/data/test.zip" "dirhelp.txt" 14;
    EvEntryClose "/data/test.zip" "dirhelp.txt";
    EvZipClose "/data/test.zip"]).
Proof.
  apply (extractZipFileBytes_first_match Fixtures.world
           (mkArchivedFile "/data/test.zip" ARCHIVE_ZIP "dirhelp.txt" 14 false
              420 1700000001)
           [mkZipFile "docs/" 0 true 2147484157 1700000000
              (inr (Fixtures.whole ""))]
           []
           (mkZipFile "dirhelp.txt" 14 false 420 1700000001
              (inr (Fixtures.whole "subdirectories")))).
  - size_in_range.
  - reflexivity.
  - intros x [<-|[]]. discriminate.
  - reflexivity.
Defined.

(** X12.  For a recorded size that is non-negative and within what [make]
    can allocate, the gzipped-tar extractor reads the stream only as far as
    the first header that bears the name: it calls [Next] once for each entry
    before the match and once for the match, then reads once from that
    entry and closes the gzip reader and the file.  What follows the match
    in the stream, damage included, has no effect on the result, and the
    error is nil. *)
Theorem extractTgzFileBytes_first_match (w : World) (af : ArchivedFile)
    (file : OsFile) (ts : TarStream) (pre post : list TarEntry)
    (e : TarEntry) :
  0 <= af_size af <= w_maxAlloc w ->
  w_Open w (af_archivefile af) = inr file ->
  w_gzip w file = inr ts ->
  tar_entries ts = pre ++ e :: post ->
  (forall x, In x pre -> th_Name (te_head x) <> af_name af) ->
  th_Name (te_head e) = af_name af ->
  extractTgzFileBytes w af =
  (Ok (Some (fst (Read (te_data e)
                    (repeat Byte.x00 (Z.to_nat (af_size af))))), None),
   [EvCall extractTgz; EvOpen (af_archivefile af);
    EvGzipNewReader (af_archivefile af)] ++
   repeat (EvTarNext (af_archivefile af)) (S (List.length pre)) ++
   [EvTarRead (af_archivefile af) (af_size af);
    EvGzipClose (af_archivefile af); EvFileClose (af_archivefile af)]).
Proof.
  intros Hsize Hopen Hgz Hes Hpre He. unfold extractTgzFileBytes.
  rewrite (make_bytes_served _ _ Hsize).
  unfold os_Open, gzip_NewReader, tar_Read, deferring.
  unfold bind at 1 2 3. simpl. rewrite Hopen. simpl.
  unfold bind at 1. simpl. rewrite Hgz. simpl.
  rewrite Hes, (extractTgz_locate_first af pre post e _ Hpre He).
  assert (L : @len byte (repeat Byte.x00 (Z.to_nat (af_size af))) = af_size af)
    by (apply len_zeros; apply Hsize).
  unfold bind, emit, ret. simpl. rewrite L.
  rewrite <- ?app_assoc. reflexivity.
Qed.

Lemma extractTgzFileBytes_first_match_witness :
  extractTgzFileBytes Fixtures.world
    (mkArchivedFile "/data/tgz_test.tgz" ARCHIVE_TGZ "sub/random_text.txt" 9
       false 420 1700000008) =
  (Ok (Some (Fixtures.bytes_of "vulputate"), None),
   [EvCall extractTgz; EvOpen "/data/tgz_test.tgz";
    EvGzipNewReader "/data/tgz_test.tgz";
    EvTarNext "/data/tgz_test.tgz"; EvTarNext "/data/tgz_test.tgz";
    EvTarRead "/data/tgz_test.tgz" 9;
    EvGzipClose "/data/tgz_test.tgz"; EvFileClose "/data/tgz_test.tgz"]).
Proof.
  apply (extractTgzFileBytes_first_match Fixtures.world
           (mkArchivedFile "/data/tgz_test.tgz" ARCHIVE_TGZ
              "sub/random_text.txt" 9 false 420 1700000008)
           (mkOsFile (Fixtures.gz_magic ++ [Byte.x01]) None)
           Fixtures.tgz_test
           [mkTarEntry (mkTarHeader "sub/" 0 true 2147484141 1700000007)
              (Fixtures.whole "")]
           []
           (mkTarEntry (mkTarHeader "sub/random_text.txt" 9 false 420
                          1700000008) (Fixtures.whole "vulputate"))).
  - size_in_range.
  - reflexivity.
  - reflexivity.
  - reflexivity.
  - intros x [<-|[]]. discriminate.
  - reflexivity.
Defined.

(** X13.  For a recorded size that is non-negative and within what [make]
    can allocate, the 7z extractor stops at the first entry that bears the
    name,
    opens it, reads once into a buffer of [af_size] bytes and closes the
    entry; an entry that does not open gives its error as it is with no
    bytes.  Unlike the Zip extractor it returns without closing the archive
    reader. *)
Theorem extract7ZFileBytes_first_match (w : World) (af : ArchivedFile)
    (pre post : list SzFile) (f : SzFile) :
  0 <= af_size af <= w_maxAlloc w ->
  w_sevenzip w (af_archivefile af) = inr (pre ++ f :: post) ->
  (forall x, In x pre -> sz_Name x <> af_name af) ->
  sz_Name f = af_name af ->
  extract7ZFileBytes w af =
  match sz_Open f with
  | inl e =>
      (Ok (None, Some e),
       [EvCall extract7Z; EvSevenzipOpenReader (af_archivefile af);
        EvEntryOpen (af_archivefile af) (af_name af)])
  | inr r =>
      (Ok (Some (fst (Read r (repeat Byte.x00 (Z.to_nat (af_size af))))), None),
       [EvCall extract7Z; EvSevenzipOpenReader (af_archivefile af);
        EvEntryOpen (af_archivefile af) (af_name af);
        EvEntryRead (af_archivefile af) (af_name af) (af_size af);
        EvEntryClose (af_archivefile af) (af_name af)])
  end.
Proof.
  intros Hsize Hopen Hpre Hf. unfold extract7ZFileBytes.
  unfold sevenzip_OpenReader, bind, emit, ret. simpl.
  rewrite Hopen. simpl. rewrite (make_bytes_served _ _ Hsize). simpl.
  rewrite (extract7Z_loop_first af pre post f _ Hpre Hf).
  assert (L : @len byte (repeat Byte.x00 (Z.to_nat (af_size af))) = af_size af)
    by (apply len_zeros; apply Hsize).
  rewrite L. destruct (sz_Open f); reflexivity.
Qed.

Lemma extract7ZFileBytes_first_match_witness :
  extract7ZFileBytes Fixtures.world
    (mkArchivedFile "/data/sz_test.7z" ARCHIVE_7Z "a.txt" 1 false 420
       1700000005) =
  (Ok (Some (Fixtures.bytes_of "a"), None),
   [EvCall extract7Z; EvSevenzipOpenReader "/data/sz_test.7z";
    EvEntryOpen "/data/sz_test.7z" "a.txt";
    EvEntryRead "/data/sz_test.7z" "a.txt" 1;
    EvEntryClose "/data/sz_test.7z" "a.txt"]).
Proof.
  apply (extract7ZFileBytes_first_match Fixtures.world
           (mkArchivedFile "/data/sz_test.7z" ARCHIVE_7Z "a.txt" 1 false 420
              1700000005)
           [mkSzFile "random_text.txt" 9 false 420 1700000004
              (inr (Fixtures.whole "vulputate"))]
           [mkSzFile "b.txt" 1 false 420 1700000006 (inr (Fixtures.whole "b"))]
           (mkSzFile "a.txt" 1 false 420 1700000005
              (inr (Fixtures.whole "a")))).
  - size_in_range.
  - reflexivity.
  - intros x [<-|[]]. discriminate.
  - reflexivity.
Defined.

Lemma extract7Z_loop_no_close (af : ArchivedFile) (fs : list SzFile)
    (buffer : list byte) :
  Forall (fun e => is_ev_sevenzip_close e = false)
    (snd (extract7Z_loop af fs buffer)).
Proof.
  induction fs as [|f fs IH]; simpl; [constructor|].
  destruct (String.eqb (sz_Name f) (af_name af)); simpl; [|exact IH].
  unfold entry_Open, entry_Read, deferring, bind, emit, ret. simpl.
  destruct (sz_Open f); simpl; repeat constructor.
Qed.

(** X14.  On every path, whatever the archive and the entry, the 7z
    extractor calls [sevenzip.OpenReader] and never closes the reader it
    gets. *)
Theorem extract7ZFileBytes_never_closes_reader (w : World)
    (af : ArchivedFile) :
  In (EvSevenzipOpenReader (af_archivefile af))
     (snd (extract7ZFileBytes w af)) /\
  Forall (fun e => is_ev_sevenzip_close e = false)
    (snd (extract7ZFileBytes w af)).
Proof.
  unfold extract7ZFileBytes, sevenzip_OpenReader.
  unfold bind at 1 2 3. simpl.
  split; [right; left; reflexivity|].
  constructor; [reflexivity|]. constructor; [reflexivity|].
  destruct (w_sevenzip w (af_archivefile af)) as [e|fs]; simpl;
    [constructor|].
  unfold make_bytes, bind.
  destruct (af_size af <? 0); simpl; [constructor|].
  destruct (w_maxAlloc w <? af_size af); simpl; [constructor|].
  apply extract7Z_loop_no_close.
Qed.

(** X15.  A negative recorded size makes [GetBytes] panic in [make]: for a
    Zip or GzippedTar entry before anything is opened, for a SevenZip entry
    right after the archive has opened. *)
Theorem GetBytes_negative_size_panics (w : World) (af : ArchivedFile) :
  af_size af < 0 ->
  (af_archivetype af = ARCHIVE_ZIP ->
   GetBytes w af =
     (Panic "makeslice: len out of range", [EvCall extractZip])) /\
  (af_archivetype af = ARCHIVE_TGZ ->
   GetBytes w af =
     (Panic "makeslice: len out of range", [EvCall extractTgz])) /\
  (af_archivetype af = ARCHIVE_7Z ->
   forall fs, w_sevenzip w (af_archivefile af) = inr fs ->
   GetBytes w af =
     (Panic "makeslice: len out of range",
      [EvCall extract7Z; EvSevenzipOpenReader (af_archivefile af)])).
Proof.
  intros Hneg. apply Z.ltb_lt in Hneg. unfold GetBytes. repeat split.
  - intros ->. simpl.
    unfold extractZipFileBytes, make_bytes, bind, emit, panic. simpl.
    rewrite Hneg. reflexivity.
  - intros ->. simpl.
    unfold extractTgzFileBytes, make_bytes, bind, emit, panic. simpl.
    rewrite Hneg. reflexivity.
  - intros -> fs Ho. simpl.
    unfold extract7ZFileBytes, sevenzip_OpenReader, make_bytes, bind, emit,
      ret, panic. simpl.
    rewrite Ho. simpl. rewrite Hneg. reflexivity.
Qed.

Lemma GetBytes_negative_size_panics_witness :
  GetBytes Fixtures.world
    (mkArchivedFile "/data/test.zip" ARCHIVE_ZIP "dirhelp.txt" (-1) false
       420 0) =
    (Panic "makeslice: len out of range", [EvCall extractZip]) /\
  GetBytes Fixtures.world
    (mkArchivedFile "/data/tgz_test.tgz" ARCHIVE_TGZ "sub/" (-1) false
       420 0) =
    (Panic "makeslice: len out of range", [EvCall extractTgz]) /\
  GetBytes Fixtures.world
    (mkArchivedFile "/data/sz_test.7z" ARCHIVE_7Z "a.txt" (-1) false 420 0) =
    (Panic "makeslice: len out of range",
     [EvCall extract7Z; EvSevenzipOpenReader "/data/sz_test.7z"]).
Proof.
  split; [|split].
  - destruct (GetBytes_negative_size_panics Fixtures.world
                (mkArchivedFile "/data/test.zip" ARCHIVE_ZIP "dirhelp.txt"
                   (-1) false 420 0)) as (H & _); [simpl; lia|].
    apply H. reflexivity.
  - destruct (GetBytes_negative_size_panics Fixtures.world
                (mkArchivedFile "/data/tgz_test.tgz" ARCHIVE_TGZ "sub/" (-1)
                   false 420 0)) as (_ & H & _); [simpl; lia|].
    apply H. reflexivity.
  - destruct (GetBytes_negative_size_panics Fixtures.world
                (mkArchivedFile "/data/sz_test.7z" ARCHIVE_7Z "a.txt" (-1)
                   false 420 0)) as (_ & _ & H); [simpl; lia|].
    apply (H eq_refl Fixtures.sz_test). reflexivity.
Defined.

Lemma GetBytes_zip (w : World) (af : ArchivedFile) :
  af_archivetype af = ARCHIVE_ZIP -> GetBytes w af = extractZipFileBytes w af.
Proof. unfold GetBytes. intros ->. reflexivity. Qed.

Lemma GetBytes_7z (w : World) (af : ArchivedFile) :
  af_archivetype af = ARCHIVE_7Z -> GetBytes w af = extract7ZFileBytes w af.
Proof. unfold GetBytes. intros ->. reflexivity. Qed.

(** X16.  When the container itself cannot be opened, extraction returns no
    bytes and the cause wrapped in a message that names the container's
    path, and reads nothing.  The Zip and gzipped-tar extractors allocate
    their buffer first, so for them this needs a recorded size that is
    non-negative and within what [make] can allocate; the 7z extractor opens
    before it allocates and does so whatever the recorded size.  The
    gzipped-tar extractor closes the file again when the gzip header is
    bad. *)
Theorem GetBytes_container_open_failure (w : World) (af : ArchivedFile) :
  let wrapped e :=
    wrapError (String.append "Could not open "
                 (String.append (af_archivefile af)
                    (String.append ".  " (Error e)))) e in
  (forall e,
     af_archivetype af = ARCHIVE_ZIP -> 0 <= af_size af <= w_maxAlloc w ->
     w_zip w (af_archivefile af) = inl e ->
     GetBytes w af =
       (Ok (None, Some (wrapped e)),
        [EvCall extractZip; EvZipOpenReader (af_archivefile af)])) /\
  (forall e,
     af_archivetype af = ARCHIVE_7Z ->
     w_sevenzip w (af_archivefile af) = inl e ->
     GetBytes w af =
       (Ok (None, Some (wrapped e)),
        [EvCall extract7Z; EvSevenzipOpenReader (af_archivefile af)])) /\
  (forall e,
     af_archivetype af = ARCHIVE_TGZ -> 0 <= af_size af <= w_maxAlloc w ->
     w_Open w (af_archivefile af) = inl e ->
     GetBytes w af =
       (Ok (None, Some (wrapped e)),
        [EvCall extractTgz; EvOpen (af_archivefile af)])) /\
  (forall file e,
     af_archivetype af = ARCHIVE_TGZ -> 0 <= af_size af <= w_maxAlloc w ->
     w_Open w (af_archivefile af) = inr file -> w_gzip w file = inl e ->
     GetBytes w af =
       (Ok (None, Some (wrapped e)),
        [EvCall extractTgz; EvOpen (af_archivefile af);
         EvGzipNewReader (af_archivefile af);
         EvFileClose (af_archivefile af)])).
Proof.
  intros wrapped. repeat split.
  - intros e Ht Hsize Ho. rewrite (GetBytes_zip w af Ht).
    unfold extractZipFileBytes. rewrite (make_bytes_served _ _ Hsize).
    unfold zip_OpenReader, bind, emit, ret. simpl. rewrite Ho. reflexivity.
  - intros e Ht Ho. rewrite (GetBytes_7z w af Ht).
    unfold extract7ZFileBytes, sevenzip_OpenReader, bind, emit, ret. simpl.
    rewrite Ho. reflexivity.
  - intros e Ht Hsize Ho. rewrite (GetBytes_tgz w af Ht).
    unfold extractTgzFileBytes. rewrite (make_bytes_served _ _ Hsize).
    unfold os_Open, bind, emit, ret. simpl. rewrite Ho. reflexivity.
  - intros file e Ht Hsize Ho Hg. rewrite (GetBytes_tgz w af Ht).
    unfold extractTgzFileBytes. rewrite (make_bytes_served _ _ Hsize).
    unfold os_Open, gzip_NewReader, deferring, bind, emit, ret. simpl.
    rewrite Ho. simpl. rewrite Hg. reflexivity.
Qed.

Lemma GetBytes_container_open_failure_witness :
  GetBytes Fixtures.world
    (mkArchivedFile "/data/bad.zip" ARCHIVE_ZIP "a" 1 false 420 0) =
    (Ok (None,
         Some (wrapError
                 "Could not open /data/bad.zip.  zip: not a valid zip file"
                 (errors_New "zip: not a valid zip file"))),
     [EvCall extractZip; EvZipOpenReader "/data/bad.zip"]) /\
  GetBytes Fixtures.world
    (mkArchivedFile "/data/bad.zip" ARCHIVE_7Z "a" (-1) false 420 0) =
    (Ok (None,
         Some (wrapError
                 "Could not open /data/bad.zip.  sevenzip: not a valid 7-zip file"
                 (errors_New "sevenzip: not a valid 7-zip file"))),
     [EvCall extract7Z; EvSevenzipOpenReader "/data/bad.zip"]) /\
  GetBytes Fixtures.world
    (mkArchivedFile "/nowhere/x.tgz" ARCHIVE_TGZ "a" 1 false 420 0) =
    (Ok (None,
         Some (wrapError
                 "Could not open /nowhere/x.tgz.  no such file or directory"
                 Fixtures.no_such_file)),
     [EvCall extractTgz; EvOpen "/nowhere/x.tgz"]) /\
  GetBytes Fixtures.world
    (mkArchivedFile "/data/notes.txt" ARCHIVE_TGZ "a" 1 false 420 0) =
    (Ok (None,
         Some (wrapError
                 "Could not open /data/notes.txt.  gzip: invalid header"
                 (errors_New "gzip: invalid header"))),
     [EvCall extractTgz; EvOpen "/data/notes.txt";
      EvGzipNewReader "/data/notes.txt"; EvFileClose "/data/notes.txt"]).
Proof.
  split; [|split; [|split]].
  - destruct (GetBytes_container_open_failure Fixtures.world
                (mkArchivedFile "/data/bad.zip" ARCHIVE_ZIP "a" 1 false 420 0))
      as (H & _).
    apply (H (errors_New "zip: not a valid zip file"));
      [reflexivity|size_in_range|reflexivity].
  - destruct (GetBytes_container_open_failure Fixtures.world
                (mkArchivedFile "/data/bad.zip" ARCHIVE_7Z "a" (-1) false 420 0))
      as (_ & H & _).
    apply (H (errors_New "sevenzip: not a valid 7-zip file")); reflexivity.
  - destruct (GetBytes_container_open_failure Fixtures.world
                (mkArchivedFile "/nowhere/x.tgz" ARCHIVE_TGZ "a" 1 false 420 0))
      as (_ & _ & H & _).
    apply (H Fixtures.no_such_file); [reflexivity|size_in_range|reflexivity].
  - destruct (GetBytes_container_open_failure Fixtures.world
                (mkArchivedFile "/data/notes.txt" ARCHIVE_TGZ "a" 1 false 420 0))
      as (_ & _ & _ & H).
    apply (H (mkOsFile (Fixtures.bytes_of "plain text") None)
             (errors_New "gzip: invalid header"));
      [reflexivity|size_in_range|reflexivity|reflexivity].
Defined.

(** X17.  The Zip cataloger records [int64(UncompressedSize64)]: a size
    below 2^63 is recorded as it is; a size of 2^63 or more wraps to a
    negative number, and [GetBytes] on such an entry panics in [make] before
    it opens the archive. *)
Theorem arFile_zip_size_conversion (ar : ArchiveInfo) (f : ZipFile) :
  (0 <= zf_UncompressedSize64 f < 2 ^ 63 ->
   af_Size (arFile_zip ar f) = zf_UncompressedSize64 f) /\
  (2 ^ 63 <= zf_UncompressedSize64 f < 2 ^ 64 ->
   af_Size (arFile_zip ar f) = zf_UncompressedSize64 f - 2 ^ 64 /\
   af_Size (arFile_zip ar f) < 0 /\
   forall w,
     GetBytes w (arFile_zip ar f) =
       (Panic "makeslice: len out of range", [EvCall extractZip])).
Proof.
  unfold af_Size. simpl. unfold int64.
  change (2 ^ 63) with 9223372036854775808.
  change (2 ^ 64) with 18446744073709551616.
  split.
  - intros H. rewrite Z.mod_small by lia. lia.
  - intros H.
    assert (E : (zf_UncompressedSize64 f + 9223372036854775808)
                  mod 18446744073709551616 - 9223372036854775808 =
                zf_UncompressedSize64 f - 18446744073709551616).
    { replace (zf_UncompressedSize64 f + 9223372036854775808)
        with (zf_UncompressedSize64 f - 9223372036854775808 +
              1 * 18446744073709551616) by lia.
      rewrite Z_mod_plus_full, Z.mod_small by lia. lia. }
    split; [exact E|]. split; [lia|].
    intros w. unfold GetBytes, extractZipFileBytes, make_bytes. simpl.
    unfold int64.
    change (2 ^ 63) with 9223372036854775808.
    change (2 ^ 64) with 18446744073709551616.
    rewrite E.
    replace (zf_UncompressedSize64 f - 18446744073709551616 <? 0) with true
      by (symmetry; apply Z.ltb_lt; lia).
    reflexivity.
Qed.

Lemma arFile_zip_size_conversion_witness :
  let ar := mkArchiveInfo "/data" "test.zip" "/data/test.zip" 5 ARCHIVE_ZIP [] in
  af_Size (arFile_zip ar
             (mkZipFile "dirhelp.txt" 14 false 420 1700000001
                (inr (Fixtures.whole "subdirectories")))) = 14 /\
  af_Size (arFile_zip ar
             (mkZipFile "huge.bin" (2 ^ 64 - 1) false 420 1700000001
                (inr (Fixtures.whole "")))) = -1 /\
  GetBytes Fixtures.world
    (arFile_zip ar
       (mkZipFile "huge.bin" (2 ^ 64 - 1) false 420 1700000001
          (inr (Fixtures.whole "")))) =
    (Panic "makeslice: len out of range", [EvCall extractZip]).
Proof.
  intros ar.
  destruct (arFile_zip_size_conversion ar
              (mkZipFile "dirhelp.txt" 14 false 420 1700000001
                 (inr (Fixtures.whole "subdirectories")))) as (H1 & _).
  destruct (arFile_zip_size_conversion ar
              (mkZipFile "huge.bin" (2 ^ 64 - 1) false 420 1700000001
                 (inr (Fixtures.whole "")))) as (_ & H2).
  destruct H2 as (E & _ & P); [simpl; lia|].
  split; [apply H1; simpl; lia|]. split; [exact E|apply P].
Defined.

(** X18.  For a recorded size that is non-negative and within what [make]
    can allocate: when no header of the stream bears the name, the
    gzipped-tar extractor walks the whole stream, one [Next] per entry and one for the
    end, still calls [Read] once, which delivers nothing, and returns the
    untouched buffer of [af_size] zero bytes together with the error that
    ended the walk: [io.EOF] after a clean end of archive.  It does not turn
    [io.EOF] into nil as the cataloger does. *)
Theorem GetBytes_tgz_no_match_run (w : World) (af : ArchivedFile)
    (file : OsFile) (ts : TarStream) :
  af_archivetype af = ARCHIVE_TGZ ->
  0 <= af_size af <= w_maxAlloc w ->
  w_Open w (af_archivefile af) = inr file ->
  w_gzip w file = inr ts ->
  (forall x, In x (tar_entries ts) -> th_Name (te_head x) <> af_name af) ->
  GetBytes w af =
  (Ok (Some (repeat Byte.x00 (Z.to_nat (af_size af))), Some (tar_end ts)),
   [EvCall extractTgz; EvOpen (af_archivefile af);
    EvGzipNewReader (af_archivefile af)] ++
   repeat (EvTarNext (af_archivefile af)) (S (List.length (tar_entries ts))) ++
   [EvTarRead (af_archivefile af) (af_size af);
    EvGzipClose (af_archivefile af); EvFileClose (af_archivefile af)]).
Proof.
  intros Ht Hsize Hopen Hgz Hno. rewrite (GetBytes_tgz w af Ht).
  unfold extractTgzFileBytes.
  rewrite (make_bytes_served _ _ Hsize).
  unfold os_Open, gzip_NewReader, tar_Read, deferring.
  unfold bind at 1 2 3. simpl. rewrite Hopen. simpl.
  unfold bind at 1. simpl. rewrite Hgz. simpl.
  rewrite (extractTgz_locate_no_match af _ _ Hno).
  assert (L : @len byte (repeat Byte.x00 (Z.to_nat (af_size af))) = af_size af)
    by (apply len_zeros; apply Hsize).
  unfold bind, emit, ret. simpl. rewrite L.
  rewrite <- ?app_assoc. reflexivity.
Qed.

Lemma GetBytes_tgz_no_match_run_witness :
  GetBytes Fixtures.world
    (mkArchivedFile "/data/tgz_test.tgz" ARCHIVE_TGZ "figgle.foo" 2 false
       420 0) =
  (Ok (Some [Byte.x00; Byte.x00], Some io_EOF),
   [EvCall extractTgz; EvOpen "/data/tgz_test.tgz";
    EvGzipNewReader "/data/tgz_test.tgz";
    EvTarNext "/data/tgz_test.tgz"; EvTarNext "/data/tgz_test.tgz";
    EvTarNext "/data/tgz_test.tgz";
    EvTarRead "/data/tgz_test.tgz" 2;
    EvGzipClose "/data/tgz_test.tgz"; EvFileClose "/data/tgz_test.tgz"]).
Proof.
  apply (GetBytes_tgz_no_match_run Fixtures.world
           (mkArchivedFile "/data/tgz_test.tgz" ARCHIVE_TGZ "figgle.foo" 2
              false 420 0)
           (mkOsFile (Fixtures.gz_magic ++ [Byte.x01]) None)
           Fixtures.tgz_test).
  - reflexivity.
  - size_in_range.
  - reflexivity.
  - reflexivity.
  - intros x [<-|[<-|[]]]; discriminate.
Defined.

(** X19.  A recorded size above what [make] can allocate stops [GetBytes] in
    [make], as a negative one does: for a Zip or GzippedTar entry before
    anything is opened, for a SevenZip entry right after the archive has
    opened.  A Zip header that reports 2^63 - 1 bytes is cataloged with that
    size and is such an entry. *)
Theorem GetBytes_oversize_panics (w : World) (af : ArchivedFile) :
  w_maxAlloc w < af_size af ->
  (af_archivetype af = ARCHIVE_ZIP ->
   exists msg, GetBytes w af = (Panic msg, [EvCall extractZip])) /\
  (af_archivetype af = ARCHIVE_TGZ ->
   exists msg, GetBytes w af = (Panic msg, [EvCall extractTgz])) /\
  (af_archivetype af = ARCHIVE_7Z ->
   forall fs, w_sevenzip w (af_archivefile af) = inr fs ->
   exists msg,
     GetBytes w af =
       (Panic msg,
        [EvCall extract7Z; EvSevenzipOpenReader (af_archivefile af)])).
Proof.
  intros Hbig. apply Z.ltb_lt in Hbig. unfold GetBytes. repeat split.
  - intros ->. simpl.
    unfold extractZipFileBytes, make_bytes, bind, emit, panic. simpl.
    rewrite Hbig. destruct (af_size af <? 0); eexists; reflexivity.
  - intros ->. simpl.
    unfold extractTgzFileBytes, make_bytes, bind, emit, panic. simpl.
    rewrite Hbig. destruct (af_size af <? 0); eexists; reflexivity.
  - intros -> fs Ho. simpl.
    unfold extract7ZFileBytes, sevenzip_OpenReader, make_bytes, bind, emit,
      ret, panic. simpl.
    rewrite Ho. simpl. rewrite Hbig.
    destruct (af_size af <? 0); eexists; reflexivity.
Qed.

Lemma GetBytes_oversize_panics_witness :
  let ar := mkArchiveInfo "/data" "test.zip" "/data/test.zip" 5 ARCHIVE_ZIP [] in
  let huge := mkZipFile "huge.bin" (2 ^ 63 - 1) false 420 1700000001
                (inr (Fixtures.whole "")) in
  af_Size (arFile_zip ar huge) = 2 ^ 63 - 1 /\
  exists msg,
    GetBytes Fixtures.world (arFile_zip ar huge) =
      (Panic msg, [EvCall extractZip]).
Proof.
  intros ar huge. split; [reflexivity|].
  destruct (GetBytes_oversize_panics Fixtures.world (arFile_zip ar huge))
    as (H & _); [vm_compute; reflexivity|].
  apply H. reflexivity.
Defined.
